(** * express-jobly: the SQL fragment compilers, the company model and the
      user-route authorization gate

    A shallow embedding of [helpers/sql.js], [models/company.js] and
    [routes/users.js].  JavaScript objects are kept as lists of own
    properties in iteration order, the column mapper as a finite map, and
    the [async] model methods as programs over the one effect they perform,
    a parameterized query handed to the database client. *)

From Stdlib Require Import ZArith Ascii QArith Qcanon.
From stdpp Require Import numbers pretty strings list gmap.

(** ** JavaScript values and objects *)

Module JS.

(** The primitive values that reach the code: request bodies and query
    objects hold nothing else once parsed.  [VNum n] is a Number that is
    an integer in the safe range (|n| < 2^53); the numeric fields of the
    data model (employee counts, salaries, ids) are integers. *)
Inductive value : Type :=
| VUndefined
| VNull
| VBool (b : bool)
| VNum (n : Z)
| VStr (s : string).

(** An object is the list of its own enumerable string-keyed properties
    in iteration order, each key occurring once.  What it inherits from
    [Object.prototype] is [Object_prototype] below; the fixed keys that
    [get] is asked for ([name], [handle], [id], ...) are not among its
    members. *)
Abbreviation object := (list (string * value)).

Fixpoint own_property (k : string) (o : object) : option value :=
  match o with
  | [] => None
  | (k', v) :: o' => if String.eqb k' k then Some v else own_property k o'
  end.

(** [o.k]: a missing property reads as [undefined]. *)
Definition get (o : object) (k : string) : value :=
  default VUndefined (own_property k o).

(** [Object.keys(o)] and [Object.values(o)]. *)
Definition keys (o : object) : list string := o.*1.
Definition values (o : object) : list value := o.*2.

(** [String(v)], the conversion a template literal applies. *)
Definition ToString (v : value) : string :=
  match v with
  | VUndefined => "undefined"
  | VNull => "null"
  | VBool true => "true"
  | VBool false => "false"
  | VNum n => pretty n
  | VStr s => s
  end.

(** [a.join(sep)] on an array of strings. *)
Definition join (sep : string) (a : list string) : string :=
  String.concat sep a.

(** [a || b] on strings where [a] may be missing: the empty string and
    [undefined] are falsy. *)
Definition or_else (a : option string) (b : string) : string :=
  match a with
  | Some EmptyString => b
  | Some s => s
  | None => b
  end.

(** The members every object made by a literal inherits from
    [Object.prototype], each by the text [String()] gives it on Node: the
    constructor and the methods are native functions, [__proto__] reads
    as the prototype object itself.  All of them are truthy. *)
Definition Object_prototype (k : string) : option string :=
  if String.eqb k "constructor"
  then Some "function Object() { [native code] }"
  else if String.eqb k "__proto__"
  then Some "[object Object]"
  else if existsb (String.eqb k)
            [ "__defineGetter__"; "__defineSetter__"; "hasOwnProperty";
              "__lookupGetter__"; "__lookupSetter__"; "isPrototypeOf";
              "propertyIsEnumerable"; "toString"; "valueOf";
              "toLocaleString" ]
  then Some ("function " +:+ k +:+ "() { [native code] }")
  else None.

(** [String(o[k])] on an object [o] whose own properties are texts, when
    [o[k]] is not [undefined]: an own property first, then the prototype. *)
Definition property_text (o : gmap string string) (k : string)
  : option string :=
  match o !! k with
  | Some s => Some s
  | None => Object_prototype k
  end.

(** [v !== undefined]. *)
Definition is_defined (v : value) : bool :=
  match v with
  | VUndefined => false
  | _ => true
  end.

(** [StringToNumber] on the integer model of numbers: surrounding white
    space is dropped, the empty string is 0, an optionally signed run of
    decimal digits is its value; every other text is sent to NaN
    ([None]).  Literals with a fraction, an exponent or a radix prefix,
    and [Infinity], have no counterpart in [VNum] and are outside the
    model: on such texts [gt] below is not the comparison JavaScript
    makes. *)
Fixpoint drop_space (s : string) : string :=
  match s with
  | String a s' => if Ascii.is_space a then drop_space s' else s
  | EmptyString => EmptyString
  end.

Definition trim (s : string) : string :=
  String.rev (drop_space (String.rev (drop_space s))).

Fixpoint digits_value (acc : Z) (s : string) : option Z :=
  match s with
  | EmptyString => Some acc
  | String a s' =>
      match Ascii.is_nat a with
      | Some d => digits_value (10 * acc + Z.of_nat d) s'
      | None => None
      end
  end.

Definition unsigned_value (s : string) : option Z :=
  match s with
  | EmptyString => None
  | _ => digits_value 0 s
  end.

Definition StringToNumber (s : string) : option Z :=
  match trim s with
  | EmptyString => Some 0%Z
  | String "+" s' => unsigned_value s'
  | String "-" s' => Z.opp <$> unsigned_value s'
  | s' => unsigned_value s'
  end.

(** [ToNumber(v)]; [None] is NaN. *)
Definition ToNumber (v : value) : option Z :=
  match v with
  | VUndefined => None
  | VNull => Some 0%Z
  | VBool b => Some (if b then 1 else 0)%Z
  | VNum n => Some n
  | VStr s => StringToNumber s
  end.

(** [a > b]: two strings are compared as texts, anything else as
    numbers, and a comparison with NaN is false. *)
Definition gt (a b : value) : bool :=
  match a, b with
  | VStr x, VStr y => String.ltb y x
  | _, _ =>
      match ToNumber a, ToNumber b with
      | Some n, Some m => Z.ltb m n
      | _, _ => false
      end
  end.

(** [a.push(x)]. *)
Definition push {A : Type} (a : list A) (x : A) : list A := a ++ [x].

(** The double-quote character, and a line break. *)
Definition dq : string := String "034"%char EmptyString.
Definition nl : string := String "010"%char EmptyString.

(** A template literal that spans several source lines. *)
Definition lines (ls : list string) : string := String.concat nl ls.

End JS.

(** ** expressError.js: the error classes the models throw *)

Inductive error : Type :=
| BadRequestError (message : string)
| NotFoundError (message : string)
| UnauthorizedError
| ExpressError (message : string) (status : nat)
| DbError (message : string).

(** The outcome of a synchronous call: a value, or a thrown error. *)
Inductive completion (A : Type) : Type :=
| Normal (a : A)
| Thrown (e : error).
Arguments Normal {A} a.
Arguments Thrown {A} e.

(** ** helpers/sql.js *)

Module Sql.
Import JS.

Record update_sql : Type := UpdateSql {
  setCols : string;
  values : list value
}.

(** One element of [cols]: ["<column>"=$<idx+1>]. *)
Definition col (jsToSql : gmap string string) (idx : nat) (colName : string)
  : string :=
  dq +:+ or_else (property_text jsToSql colName) colName +:+ dq +:+ "=$"
     +:+ pretty (idx + 1)%nat.

Definition cols (dataToUpdate : object) (jsToSql : gmap string string)
  : list string :=
  imap (col jsToSql) (keys dataToUpdate).

Definition sqlForPartialUpdate
    (dataToUpdate : object) (jsToSql : gmap string string)
  : completion update_sql :=
  let keys := JS.keys dataToUpdate in
  if Nat.eqb (length keys) 0 then Thrown (BadRequestError "No data")
  else
    Normal {| setCols := join ", " (cols dataToUpdate jsToSql);
              values := JS.values dataToUpdate |}.

End Sql.

(** ** db.js: the database client

    [db.query(text, values)] is the only effect of the model methods.  A
    method is a program that ends in a value or a thrown error, or asks for
    a query and goes on with the rows of the result. *)

Module Db.
Import JS.

Abbreviation row := object.

Inductive prog (A : Type) : Type :=
| Ret (a : A)
| Throw (e : error)
| Query (text : string) (params : list value) (k : list row → prog A)
| ConsoleLog (rows : list row) (k : prog A).
Arguments Ret {A} a.
Arguments Throw {A} e.
Arguments Query {A} text params k.
Arguments ConsoleLog {A} rows k.

Fixpoint bind {A B : Type} (p : prog A) (f : A → prog B) : prog B :=
  match p with
  | Ret a => f a
  | Throw e => Throw e
  | Query text params k => Query text params (λ rows, bind (k rows) f)
  | ConsoleLog rows k => ConsoleLog rows (bind k f)
  end.

#[export] Instance prog_ret : MRet prog := @Ret.
#[export] Instance prog_bind : MBind prog := λ A B f p, bind p f.

(** [await db.query(text, params)], read at [.rows]. *)
Definition query (text : string) (params : list value) : prog (list row) :=
  Query text params Ret.

(** A synchronous call inside an [async] body. *)
Definition lift {A : Type} (c : completion A) : prog A :=
  match c with
  | Normal a => Ret a
  | Thrown e => Throw e
  end.

(** What the server answers to one statement, over a store [W]. *)
Inductive answer : Type :=
| Rows (rows : list row)
| Failed (message : string).

Definition client (W : Type) : Type :=
  string → list value → W → answer * W.

(** Running a program against a server.  The console is not part of the
    store, so a log line leaves it as it is. *)
Fixpoint run {W A : Type} (db : client W) (p : prog A) (w : W)
  : completion A * W :=
  match p with
  | Ret a => (Normal a, w)
  | Throw e => (Thrown e, w)
  | Query text params k =>
      match db text params w with
      | (Rows rows, w') => run db (k rows) w'
      | (Failed message, w') => (Thrown (DbError message), w')
      end
  | ConsoleLog _ k => run db k w
  end.

(** The statements a program sends before it stops, under a server. *)
Fixpoint statements {W A : Type} (db : client W) (p : prog A) (w : W)
  : list (string * list value) :=
  match p with
  | Ret _ | Throw _ => []
  | Query text params k =>
      (text, params) ::
      match db text params w with
      | (Rows rows, w') => statements db (k rows) w'
      | (Failed _, _) => []
      end
  | ConsoleLog _ k => statements db k w
  end.

End Db.

(** ** models/company.js *)

Module Company.
Import JS Db.

(** The text [findAll] starts from. *)
Definition base_query : string :=
  lines [ "SELECT handle,";
          "                  name,";
          "                  description,";
          "                  num_employees AS " +:+ dq +:+ "numEmployees" +:+ dq +:+ ",";
          "                  logo_url AS " +:+ dq +:+ "logoUrl" +:+ dq;
          "           FROM companies" ].

(** The two arrays [findAll] fills. *)
Record filter_state : Type := FilterState {
  whereStatements : list string;
  values : list value
}.

(** [if (name !== undefined) { values.push(`%${name}%`); ... }] *)
Definition add_name (name : value) (st : filter_state) : filter_state :=
  if is_defined name then
    let values := push (values st) (VStr ("%" +:+ ToString name +:+ "%")) in
    {| whereStatements :=
         push (whereStatements st) ("name ILIKE $" +:+ pretty (length values));
       values := values |}
  else st.

(** [if (minEmployees !== undefined) { values.push(minEmployees); ... }] *)
Definition add_min (minEmployees : value) (st : filter_state) : filter_state :=
  if is_defined minEmployees then
    let values := push (values st) minEmployees in
    {| whereStatements :=
         push (whereStatements st)
              ("num_employees >= $" +:+ pretty (length values));
       values := values |}
  else st.

(** [if (maxEmployees !== undefined) { values.push(maxEmployees); ... }] *)
Definition add_max (maxEmployees : value) (st : filter_state) : filter_state :=
  if is_defined maxEmployees then
    let values := push (values st) maxEmployees in
    {| whereStatements :=
         push (whereStatements st)
              ("num_employees <= $" +:+ pretty (length values));
       values := values |}
  else st.

(** [static async findAll(searchFilters = {})] *)
Definition findAll (searchFilters : object) : prog (list row) :=
  let query := base_query in
  let st := {| whereStatements := []; values := [] |} in
  let name := get searchFilters "name" in
  let minEmployees := get searchFilters "minEmployees" in
  let maxEmployees := get searchFilters "maxEmployees" in
  if gt minEmployees maxEmployees then
    Throw (BadRequestError
             "min employees can not be greater the max employees")
  else
    let st := add_name name st in
    let st := add_min minEmployees st in
    let st := add_max maxEmployees st in
    let query :=
      if Nat.ltb 0 (length (whereStatements st))
      then query +:+ " WHERE " +:+ join " AND " (whereStatements st)
      else query in
    let query := query +:+ " ORDER BY name" in
    finalQuery ← Db.query query (values st);
    mret finalQuery.

(** [findAll()] with the argument left out. *)
Definition findAll_default : prog (list row) := findAll [].

(** The two statements of [get]. *)
Definition get_lookup_query : string :=
  "SELECT * FROM companies WHERE handle = $1".

Definition get_join_query : string :=
  lines [ "SELECT c.handle,";
          "                  c.name,";
          "                  c.description,";
          "                  c.num_employees AS " +:+ dq +:+ "numEmployees" +:+ dq +:+ ",";
          "                  c.logo_url AS " +:+ dq +:+ "logoUrl" +:+ dq +:+ ",";
          "                  j.title,";
          "                  j.salary,";
          "                  j.equity,";
          "                  j.id";
          "           FROM companies AS c";
          "           FULL JOIN jobs AS j";
          "           ON c.handle = j.company_handle";
          "           WHERE handle = $1" ].

(** The object literals [get] builds. *)
Record job_entry : Type := JobEntry {
  id : value;
  title : value;
  salary : value;
  equity : value
}.

Record company_detail : Type := CompanyDetail {
  handle : value;
  name : value;
  description : value;
  numEmployees : value;
  logoUrl : value;
  jobs : list job_entry
}.

Definition job_of_row (row : row) : job_entry :=
  {| id := JS.get row "id";
     title := JS.get row "title";
     salary := JS.get row "salary";
     equity := JS.get row "equity" |}.

(** [static async get(handle)] *)
Definition get (handle : string) : prog company_detail :=
  res ← Db.query get_lookup_query [VStr handle];
  ConsoleLog res (
  companyRes ← Db.query get_join_query [VStr handle];
  match companyRes with
  | [] => Throw (NotFoundError ("No company: " +:+ handle))
  | row0 :: _ =>
      let jobs := job_of_row <$> companyRes in
      let company :=
        {| handle := JS.get row0 "handle";
           name := JS.get row0 "name";
           description := JS.get row0 "description";
           numEmployees := JS.get row0 "numEmployees";
           logoUrl := JS.get row0 "logoUrl";
           jobs := jobs |} in
      mret company
  end).

(** The column mapper [update] passes to the compiler. *)
Definition jsToSql : gmap string string :=
  {[ "numEmployees" := "num_employees"; "logoUrl" := "logo_url" ]}.

Definition update_query (setCols handleVarIdx : string) : string :=
  lines [ "UPDATE companies ";
          "                      SET " +:+ setCols +:+ " ";
          "                      WHERE handle = " +:+ handleVarIdx +:+ " ";
          "                      RETURNING handle, ";
          "                                name, ";
          "                                description, ";
          "                                num_employees AS " +:+ dq +:+ "numEmployees" +:+ dq +:+ ", ";
          "                                logo_url AS " +:+ dq +:+ "logoUrl" +:+ dq ].

(** [static async update(handle, data)] *)
Definition update (handle : string) (data : object) : prog row :=
  r ← lift (Sql.sqlForPartialUpdate data jsToSql);
  let handleVarIdx := "$" +:+ pretty (length (Sql.values r) + 1)%nat in
  let querySql := update_query (Sql.setCols r) handleVarIdx in
  result ← Db.query querySql (Sql.values r ++ [VStr handle]);
  match result !! 0%nat with
  | None => Throw (NotFoundError ("No company: " +:+ handle))
  | Some company => mret company
  end.

Definition remove_query : string :=
  lines [ "DELETE";
          "           FROM companies";
          "           WHERE handle = $1";
          "           RETURNING handle" ].

(** [static async remove(handle)] *)
Definition remove (handle : string) : prog unit :=
  result ← Db.query remove_query [VStr handle];
  match result !! 0%nat with
  | None => Throw (NotFoundError ("No company: " +:+ handle))
  | Some company => mret tt
  end.

(** The two statements of [create]. *)
Definition create_check_query : string :=
  lines [ "SELECT handle";
          "           FROM companies";
          "           WHERE handle = $1" ].

Definition create_insert_query : string :=
  lines [ "INSERT INTO companies";
          "           (handle, name, description, num_employees, logo_url)";
          "           VALUES ($1, $2, $3, $4, $5)";
          "           RETURNING handle, name, description, num_employees AS "
            +:+ dq +:+ "numEmployees" +:+ dq +:+ ", logo_url AS "
            +:+ dq +:+ "logoUrl" +:+ dq ].

(** The parameters of the INSERT, in the order of its column list. *)
Definition create_params (data : object) : list value :=
  [ JS.get data "handle";
    JS.get data "name";
    JS.get data "description";
    JS.get data "numEmployees";
    JS.get data "logoUrl" ].

(** [static async create({ handle, name, description, numEmployees,
    logoUrl })]; the result is [result.rows[0]], which is [undefined]
    ([None]) when the statement returns no row. *)
Definition create (data : object) : prog (option row) :=
  let handle := JS.get data "handle" in
  duplicateCheck ← Db.query create_check_query [handle];
  match duplicateCheck !! 0%nat with
  | Some _ =>
      Throw (BadRequestError ("Duplicate company: " +:+ ToString handle))
  | None =>
      result ← Db.query create_insert_query (create_params data);
      let company := result !! 0%nat in
      mret company
  end.

End Company.

(** ** The server's reading of the two statements of [Company.get]

    The tables [companies] and [jobs] with the columns the statements of
    [models/company.js] name, and the rows PostgreSQL returns for the two
    SELECT statements of [get].  [VNull] stands for SQL NULL. *)

Module Postgres.
Import JS Db.

Record company_row : Type := CompanyRow {
  c_handle : string;
  c_name : value;
  c_description : value;
  c_num_employees : value;
  c_logo_url : value
}.

Record job_row : Type := JobRow {
  j_id : value;
  j_title : value;
  j_salary : value;
  j_equity : value;
  j_company_handle : option string
}.

Record database : Type := Database {
  companies : list company_row;
  jobs : list job_row
}.

(** [ON c.handle = j.company_handle]: never true on a NULL. *)
Definition on_handle (c : company_row) (j : job_row) : bool :=
  match j_company_handle j with
  | Some h => String.eqb (c_handle c) h
  | None => false
  end.

(** The joined rows of one company: its pairs with the jobs that satisfy
    the condition, or the company beside an all-NULL job when there is
    none. *)
Definition company_part (js : list job_row) (c : company_row)
  : list (option company_row * option job_row) :=
  match List.filter (on_handle c) js with
  | [] => [(Some c, None)]
  | partners => (λ j, (Some c, Some j)) <$> partners
  end.

(** [companies AS c FULL JOIN jobs AS j ON ...]: the part of every
    company, then every job without a partner beside an all-NULL company.
    The order of the rows is one PostgreSQL may choose. *)
Definition full_join (cs : list company_row) (js : list job_row)
  : list (option company_row * option job_row) :=
  flat_map (company_part js) cs
  ++ ((λ j, (None, Some j)) <$>
        List.filter (λ j, negb (existsb (λ c, on_handle c j) cs)) js).

(** [WHERE handle = $1] on a joined row; a NULL handle does not pass. *)
Definition where_handle (h : string)
    (r : option company_row * option job_row) : bool :=
  match r.1 with
  | Some c => String.eqb (c_handle c) h
  | None => false
  end.

Definition of_company {A : Type} (f : company_row → A) (null : A)
    (c : option company_row) : A :=
  match c with Some c => f c | None => null end.

Definition of_job (f : job_row → value) (j : option job_row) : value :=
  match j with Some j => f j | None => VNull end.

(** The select list of the join statement, in its order and under its
    aliases. *)
Definition join_row (r : option company_row * option job_row) : row :=
  [ ("handle", of_company (λ c, VStr (c_handle c)) VNull r.1);
    ("name", of_company c_name VNull r.1);
    ("description", of_company c_description VNull r.1);
    ("numEmployees", of_company c_num_employees VNull r.1);
    ("logoUrl", of_company c_logo_url VNull r.1);
    ("title", of_job j_title r.2);
    ("salary", of_job j_salary r.2);
    ("equity", of_job j_equity r.2);
    ("id", of_job j_id r.2) ].

Definition select_join (h : string) (d : database) : list row :=
  join_row <$> List.filter (where_handle h) (full_join (companies d) (jobs d)).

(** [SELECT * FROM companies WHERE handle = $1] *)
Definition star_row (c : company_row) : row :=
  [ ("handle", VStr (c_handle c));
    ("name", c_name c);
    ("description", c_description c);
    ("num_employees", c_num_employees c);
    ("logo_url", c_logo_url c) ].

Definition select_star (h : string) (d : database) : list row :=
  star_row <$> List.filter (λ c, String.eqb (c_handle c) h) (companies d).

(** The server, for the statements of [Company.get] with a text parameter;
    both only read. *)
Definition server : client database :=
  λ text params d,
    match params with
    | [VStr h] =>
        if String.eqb text Company.get_lookup_query
        then (Rows (select_star h d), d)
        else if String.eqb text Company.get_join_query
        then (Rows (select_join h d), d)
        else (Failed "statement not supported", d)
    | _ => (Failed "statement not supported", d)
    end.

(** The entry [Company.get] builds from a joined row that holds job [j],
    and the one it builds from a row padded with a NULL job. *)
Definition entry_of_job (j : job_row) : Company.job_entry :=
  {| Company.id := j_id j;
     Company.title := j_title j;
     Company.salary := j_salary j;
     Company.equity := j_equity j |}.

Definition null_entry : Company.job_entry :=
  {| Company.id := VNull;
     Company.title := VNull;
     Company.salary := VNull;
     Company.equity := VNull |}.

(** A small store: company [c1] with one job, company [c2] with none. *)
Definition c1 : company_row :=
  CompanyRow "c1" (VStr "C1") (VStr "Desc1") (VNum 1) (VStr "http://c1.img").
Definition c2 : company_row :=
  CompanyRow "c2" (VStr "C2") (VStr "Desc2") (VNum 2) VNull.
Definition j1 : job_row :=
  JobRow (VNum 1) (VStr "J1") (VNum 150000) (VStr "0.01") (Some "c1").
Definition store : database := Database [c1; c2] [j1].

End Postgres.

(** ** middleware/auth.js *)

Module Auth.

(** Modelled from the spec: the claims a verified token carries (section
    3, Credential claims); [helpers/tokens.js] and [middleware/auth.js]
    are not among the sources. *)
Record claims : Type := Claims {
  identity : string;
  isElevated : bool
}.

(** Modelled from the spec: the two terminal states of a request at the
    gate (section 4.4). *)
Inductive decision : Type := Allowed | Denied.

(** Modelled from the spec: [ensureUserOrAdmin] is missing; section 4.4,
    RequireSelfOrElevated(routeIdentity): Allowed if claims.isElevated is
    true, or claims.identity equals the route-bound identity parameter;
    else Denied. *)
Definition ensureUserOrAdmin (user : option claims) (routeIdentity : string)
  : decision :=
  match user with
  | Some c =>
      if isElevated c || String.eqb (identity c) routeIdentity
      then Allowed else Denied
  | None => Denied
  end.

End Auth.

(** ** routes/users.js, the routes under [/users/:username] *)

Module UsersRoutes.
Import JS Db Auth.

Record request : Type := Request {
  locals_user : option claims;
  params_username : string;
  params_id : string;
  body : object
}.

(** [router.METHOD(path, middleware, handler)]: the handler runs when the
    middleware lets the request through, and a refusal goes to the error
    handlers as the unauthorized signal (section 4.4). *)
Definition guarded {A : Type} (middleware : request → decision)
    (handler : request → prog A) (req : request) : prog A :=
  match middleware req with
  | Allowed => handler req
  | Denied => Throw UnauthorizedError
  end.

(** Modelled from the spec: the middleware [ensureUserOrAdmin] on a
    request, which is missing with [middleware/auth.js]: the policy on the
    claims attached to the request and the [:username] path segment. *)
Definition userOrAdmin (req : request) : decision :=
  ensureUserOrAdmin (locals_user req) (params_username req).

Section Routes.

(** [models/user.js] and the schema validator are collaborators that are
    not among the sources. *)
Context {user application : Type}.
Variable User_get : string → prog user.
Variable User_update : string → object → prog user.
Variable User_getApplication : string → string → prog (option application).
Variable User_apply : string → string → prog value.
Variable User_remove : string → prog unit.
(** The message of the validator's errors on a body, [None] when valid. *)
Variable userUpdate_errors : object → option string.

Inductive response : Type :=
| JsonUser (u : user)
| JsonApplied (applied : value)
| JsonDeleted (deleted : string).

(** [router.get("/:username", ensureUserOrAdmin, ...)] *)
Definition get_user : request → prog response :=
  guarded userOrAdmin (λ req,
    user ← User_get (params_username req);
    mret (JsonUser user)).

(** [router.patch("/:username", ensureUserOrAdmin, ...)] *)
Definition patch_user : request → prog response :=
  guarded userOrAdmin (λ req,
    match userUpdate_errors (body req) with
    | Some errs => Throw (BadRequestError errs)
    | None =>
        user ← User_update (params_username req) (body req);
        mret (JsonUser user)
    end).

(** [router.post("/:username/jobs/:id", ensureUserOrAdmin, ...)] *)
Definition post_application : request → prog response :=
  guarded userOrAdmin (λ req,
    let username := params_username req in
    let jobId := params_id req in
    duplicate ← User_getApplication username jobId;
    match duplicate with
    | Some _ =>
        Throw (ExpressError
                 (username +:+ " has already applied for this job.") 400)
    | None =>
        applicationJobId ← User_apply username jobId;
        mret (JsonApplied applicationJobId)
    end).

(** [router.delete("/:username", ensureUserOrAdmin, ...)] *)
Definition delete_user : request → prog response :=
  guarded userOrAdmin (λ req,
    _ ← User_remove (params_username req);
    mret (JsonDeleted (params_username req))).

End Routes.

Section AdminRoutes.

(** The two routes at [/users], behind [ensureAdmin].  The middleware,
    [User.register], [User.findAll], [createToken] and the validator of
    [userNew.json] are collaborators that are not among the sources. *)
Context {user : Type}.
Variable ensureAdmin : request → decision.
Variable User_register : object → prog user.
Variable User_findAll : prog (list user).
Variable createToken : user → completion string.
(** The message of the validator's errors on a body, [None] when valid. *)
Variable userNew_errors : object → option string.

Inductive admin_response : Type :=
| StatusJsonUserToken (status : nat) (u : user) (token : string)
| JsonUsers (users : list user).

(** [router.post("/", ensureAdmin, ...)] *)
Definition post_user : request → prog admin_response :=
  guarded ensureAdmin (λ req,
    match userNew_errors (body req) with
    | Some errs => Throw (BadRequestError errs)
    | None =>
        user ← User_register (body req);
        token ← lift (createToken user);
        mret (StatusJsonUserToken 201 user token)
    end).

(** [router.get("/", ensureAdmin, ...)] *)
Definition get_users : request → prog admin_response :=
  guarded ensureAdmin (λ req,
    users ← User_findAll;
    mret (JsonUsers users)).

End AdminRoutes.

End UsersRoutes.

(** ** models/job.js, the search filter *)

Module Job.

(** Modelled from the spec: [models/job.js] is not among the sources, only
    its tests are.  Section 3, Filter criteria, Job: [title] (substring,
    case-insensitive), [minSalary] (integer), [hasEquity] (boolean). *)
Record criteria : Type := Criteria {
  title : option string;
  minSalary : option Z;
  hasEquity : option bool
}.

(** Modelled from the spec: a row of [jobs] as the tests of
    [models/job.test.js] read it; [equity] is a NUMERIC that may be NULL. *)
Record job : Type := JobRecord {
  job_title : string;
  job_salary : option Z;
  job_equity : option Qc;
  job_companyHandle : string
}.

(** Modelled from the spec: the predicates of section 4.2 by what they
    keep: a case-insensitive containment, an inclusive lower bound, and
    an equity that is non-null and greater than zero. *)
Inductive predicate : Type :=
| TitleContains (text : string)
| SalaryAtLeast (n : Z)
| EquityPositive.

Definition lower (a : ascii) : ascii :=
  let n := nat_of_ascii a in
  if (65 <=? n)%nat && (n <=? 90)%nat then ascii_of_nat (n + 32) else a.

Fixpoint lowercase (s : string) : string :=
  match s with
  | EmptyString => EmptyString
  | String a s' => String (lower a) (lowercase s')
  end.

Fixpoint contains (needle hay : string) : bool :=
  String.prefix needle hay ||
  match hay with
  | EmptyString => false
  | String _ hay' => contains needle hay'
  end.

Definition holds (j : job) (p : predicate) : bool :=
  match p with
  | TitleContains text => contains (lowercase text) (lowercase (job_title j))
  | SalaryAtLeast n =>
      match job_salary j with
      | Some s => (n <=? s)%Z
      | None => false
      end
  | EquityPositive =>
      match job_equity j with
      | Some q => bool_decide (0 < q)%Qc
      | None => false
      end
  end.

(** Modelled from the spec: section 4.2, one predicate per present
    criterion in the order title, minimum salary, equity; the equity
    predicate only when the flag is true. *)
Definition compile (c : criteria) : list predicate :=
  match title c with Some t => [TitleContains t] | None => [] end
  ++ match minSalary c with Some n => [SalaryAtLeast n] | None => [] end
  ++ match hasEquity c with Some true => [EquityPositive] | _ => [] end.

(** The rows the conjunction of the compiled predicates keeps. *)
Definition keeps (c : criteria) (j : job) : bool :=
  forallb (holds j) (compile c).

Definition matching (c : criteria) (table : list job) : list job :=
  List.filter (keeps c) table.

Definition with_equity (e : option Qc) (j : job) : job :=
  {| job_title := job_title j;
     job_salary := job_salary j;
     job_equity := e;
     job_companyHandle := job_companyHandle j |}.

Definition without_equity_flag (c : criteria) : criteria :=
  {| title := title c; minSalary := minSalary c; hasEquity := None |}.

(** The three jobs the tests of [models/job.test.js] start from. *)
Definition J1 : job :=
  JobRecord "J1" (Some 150000%Z) (Some (Q2Qc (1 # 100))) "c1".
Definition J2 : job := JobRecord "J2" (Some 175000%Z) None "c2".
Definition J3 : job :=
  JobRecord "J3" (Some 200000%Z) (Some (Q2Qc (3 # 100))) "c3".

End Job.

(** ** The compilers as the specification words them

    Second definitions, written from the sentences of the specification,
    to be compared with the code above. *)

Module Stated.
Import JS.

(** ["<column>"=$<n>] *)
Definition fragment (column : string) (n : nat) : string :=
  dq +:+ column +:+ dq +:+ "=$" +:+ pretty n.



(** The column the code resolves: the mapper's own entry when it is a
    non-empty text; for a key the mapper has no own entry for, the text of
    the member of [Object.prototype] of that name when there is one; the
    key in every other case. *)
Definition resolved_column (columnMapper : gmap string string) (key : string)
  : string :=
  match columnMapper !! key with
  | Some c => if decide (c = EmptyString) then key else c
  | None => default key (Object_prototype key)
  end.

(** Section 3, Filter criteria, Company: a name and two integer bounds,
    each optional. *)
Record company_criteria : Type := CompanyCriteria {
  by_name : option string;
  by_min : option Z;
  by_max : option Z
}.

(** What a filter object holds at the three recognized keys; a criterion
    that is not there reads as [undefined]. *)
Definition carries (searchFilters : object) (c : company_criteria) : Prop :=
  get searchFilters "name" = from_option VStr VUndefined (by_name c)
  ∧ get searchFilters "minEmployees" = from_option VNum VUndefined (by_min c)
  ∧ get searchFilters "maxEmployees" = from_option VNum VUndefined (by_max c).

(** "if both present, minEmployees ≤ maxEmployees" *)
Definition ordered_range (c : company_criteria) : Prop :=
  match by_min c, by_max c with
  | Some lo, Some hi => (lo ≤ hi)%Z
  | _, _ => True
  end.

(** "For each recognized, present criterion, append one predicate to an
    ordered list and one value to the positional list, in this fixed
    precedence order": the comparison and its value, per criterion. *)
Definition criteria_list (c : company_criteria) : list (string * value) :=
  match by_name c with
  | Some n => [("name ILIKE", VStr ("%" +:+ n +:+ "%"))]
  | None => []
  end
  ++ match by_min c with
     | Some lo => [("num_employees >=", VNum lo)]
     | None => []
     end
  ++ match by_max c with
     | Some hi => [("num_employees <=", VNum hi)]
     | None => []
     end.

(** The predicate at position [i] takes the parameter [$<i+1>]. *)
Definition predicates (c : company_criteria) : list string :=
  imap (λ i p, p.1 +:+ " $" +:+ pretty (S i)) (criteria_list c).

Definition orderedValues (c : company_criteria) : list value :=
  (criteria_list c).*2.

Definition where_clause (c : company_criteria) : string :=
  match predicates c with
  | [] => EmptyString
  | ps => " WHERE " +:+ join " AND " ps
  end.

Definition fullQuery (baseSelect : string) (c : company_criteria) : string :=
  baseSelect +:+ where_clause c +:+ " ORDER BY name".

(** The recognized keys of a company filter. *)
Definition recognized (key : string) : bool :=
  String.eqb key "name" || String.eqb key "minEmployees"
  || String.eqb key "maxEmployees".

Definition only_recognized (searchFilters : object) : object :=
  List.filter (λ kv, recognized kv.1) searchFilters.

End Stated.

(** ** The columns of the company mapper *)

Module CompanyColumns.

(** The column [Company.update] writes for a key of its data: the two
    camel-case fields have their own column names; a key that names a
    member of [Object.prototype] gets that member's text; every other key
    is its own column. *)
Definition column (key : string) : string :=
  if String.eqb key "numEmployees" then "num_employees"
  else if String.eqb key "logoUrl" then "logo_url"
  else default key (JS.Object_prototype key).

End CompanyColumns.

(** * Properties *)

(** The case of [helpers/sql.test.js]. *)
Example sqlForPartialUpdate_test :
  Sql.sqlForPartialUpdate
    [("numEmployees", JS.VNum 1000); ("logoUrl", JS.VStr "/logos/logo2.png")]
    {[ "numEmployees" := "num_employees"; "logoUrl" := "logo_url" ]}
  = Normal {| Sql.setCols :=
                JS.dq +:+ "num_employees" +:+ JS.dq +:+ "=$1, "
                  +:+ JS.dq +:+ "logo_url" +:+ JS.dq +:+ "=$2";
              Sql.values := [JS.VNum 1000; JS.VStr "/logos/logo2.png"] |}.
Proof. vm_compute. reflexivity. Qed.

(** [models/job.test.js], "works with only has equity filter". *)
Example job_findAll_hasEquity_test :
  Job.matching (Job.Criteria None None (Some true)) [Job.J1; Job.J2; Job.J3]
  = [Job.J1; Job.J3].
Proof. vm_compute. reflexivity. Qed.

(** ** The partial-update compiler *)

Section PartialUpdate.
Import JS Sql Stated.

(** A member of [Object.prototype] never reads as the empty text. *)
Lemma Object_prototype_nonempty (k : string) :
  Object_prototype k ≠ Some EmptyString.
Proof.
  unfold Object_prototype.
  destruct (String.eqb k "constructor"); [discriminate|].
  destruct (String.eqb k "__proto__"); [discriminate|].
  destruct (existsb _ _); discriminate.
Qed.

Lemma or_else_resolved (m : gmap string string) (key : string) :
  or_else (property_text m key) key = resolved_column m key.
Proof.
  unfold or_else, property_text, resolved_column.
  destruct (m !! key) as [[|a c]|]; [reflexivity..|].
  pose proof (Object_prototype_nonempty key) as Hne.
  destruct (Object_prototype key) as [[|a t]|]; [congruence|reflexivity..].
Qed.

Lemma col_fragment (m : gmap string string) (i : nat) (key : string) :
  col m i key = fragment (resolved_column m key) (S i).
Proof.
  unfold col, fragment. rewrite or_else_resolved.
  replace (i + 1)%nat with (S i) by lia. reflexivity.
Qed.

Lemma sqlForPartialUpdate_nonempty (d : object) (m : gmap string string) :
  d ≠ [] →
  sqlForPartialUpdate d m
  = Normal {| setCols := join ", " (cols d m); values := d.*2 |}.
Proof.
  intros Hd. unfold sqlForPartialUpdate, JS.keys, JS.values.
  destruct d as [|kv d]; [congruence|]. reflexivity.
Qed.




(** A key that is absent from the mapper is not always its own column:
    the lookup reaches [Object.prototype]. *)
Example sqlForPartialUpdate_inherited_key :
  sqlForPartialUpdate [("constructor", VNum 1)] ∅
  = Normal {| setCols :=
                dq +:+ "function Object() { [native code] }" +:+ dq +:+ "=$1";
              values := [VNum 1] |}
  ∧ sqlForPartialUpdate [("toString", VStr "x"); ("name", VStr "n")]
                        Company.jsToSql
    = Normal {| setCols :=
                  dq +:+ "function toString() { [native code] }" +:+ dq
                     +:+ "=$1, " +:+ dq +:+ "name" +:+ dq +:+ "=$2";
                values := [VStr "x"; VStr "n"] |}
  ∧ sqlForPartialUpdate [("__proto__", VNum 1)] Company.jsToSql
    = Normal {| setCols := dq +:+ "[object Object]" +:+ dq +:+ "=$1";
                values := [VNum 1] |}.
Proof. repeat split; vm_compute; reflexivity. Qed.

(** C2.  On a field-set with no key the compiler throws
    [BadRequestError "No data"], whatever the mapper, and so returns no
    SQL text. *)
Theorem sqlForPartialUpdate_no_data
    (dataToUpdate : object) (jsToSql : gmap string string) :
  length (keys dataToUpdate) = 0%nat →
  sqlForPartialUpdate dataToUpdate jsToSql
  = Thrown (BadRequestError "No data")
  ∧ ∀ r, sqlForPartialUpdate dataToUpdate jsToSql ≠ Normal r.
Proof.
  intros Hk. unfold sqlForPartialUpdate. rewrite Hk. simpl.
  split; [reflexivity | discriminate].
Qed.

Lemma sqlForPartialUpdate_no_data_witness :
  sqlForPartialUpdate [] Company.jsToSql = Thrown (BadRequestError "No data")
  ∧ ∀ r, sqlForPartialUpdate [] Company.jsToSql ≠ Normal r.
Proof.
  apply (sqlForPartialUpdate_no_data [] Company.jsToSql). reflexivity.
Defined.

End PartialUpdate.

(** ** The company search filter *)

Section CompanyFilter.
Import JS Db Company Stated.

(** [findAll] in terms of the three values it reads. *)
Lemma findAll_unfold (o : object) :
  findAll o =
  if gt (JS.get o "minEmployees") (JS.get o "maxEmployees") then
    Throw (BadRequestError
             "min employees can not be greater the max employees")
  else
    let st := add_max (JS.get o "maxEmployees")
                (add_min (JS.get o "minEmployees")
                   (add_name (JS.get o "name")
                      {| whereStatements := []; values := [] |})) in
    Db.query
      ((if Nat.ltb 0 (length (whereStatements st))
        then base_query +:+ " WHERE " +:+ join " AND " (whereStatements st)
        else base_query) +:+ " ORDER BY name")
      (values st).
Proof. unfold findAll. destruct (gt _ _); reflexivity. Qed.

(** C3.  When both bounds are numbers and the minimum exceeds the
    maximum, [findAll] throws [BadRequestError] whatever else the filter
    object holds; it stops there, so under any server no statement is
    sent and the store is left as it was. *)
Theorem findAll_inverted_range (searchFilters : object) (lo hi : Z) :
  JS.get searchFilters "minEmployees" = VNum lo →
  JS.get searchFilters "maxEmployees" = VNum hi →
  (lo > hi)%Z →
  findAll searchFilters
  = Throw (BadRequestError
             "min employees can not be greater the max employees")
  ∧ ∀ (W : Type) (db : client W) (w : W),
      statements db (findAll searchFilters) w = []
      ∧ run db (findAll searchFilters) w
        = (Thrown (BadRequestError
                     "min employees can not be greater the max employees"),
           w).
Proof.
  intros Hlo Hhi Hgt.
  assert (findAll searchFilters
          = Throw (BadRequestError
                     "min employees can not be greater the max employees"))
    as ->.
  { rewrite findAll_unfold, Hlo, Hhi. simpl.
    destruct (Z.ltb_spec hi lo); [reflexivity | lia]. }
  split; [reflexivity|]. intros W db w. split; reflexivity.
Qed.

Lemma findAll_inverted_range_witness :
  findAll [("name", VStr "net"); ("minEmployees", VNum 50);
           ("maxEmployees", VNum 10)]
  = Throw (BadRequestError
             "min employees can not be greater the max employees")
  ∧ ∀ (W : Type) (db : client W) (w : W),
      statements db
        (findAll [("name", VStr "net"); ("minEmployees", VNum 50);
                  ("maxEmployees", VNum 10)]) w = []
      ∧ run db
          (findAll [("name", VStr "net"); ("minEmployees", VNum 50);
                    ("maxEmployees", VNum 10)]) w
        = (Thrown (BadRequestError
                     "min employees can not be greater the max employees"),
           w).
Proof.
  apply (findAll_inverted_range
           [("name", VStr "net"); ("minEmployees", VNum 50);
            ("maxEmployees", VNum 10)] 50 10).
  - reflexivity.
  - reflexivity.
  - lia.
Defined.

Lemma criteria_aligned (c : company_criteria) :
  length (predicates c) = length (orderedValues c)
  ∧ ∀ (i : nat) (p : string) (v : value),
      criteria_list c !! i = Some (p, v) →
      predicates c !! i = Some (p +:+ " $" +:+ pretty (S i))
      ∧ orderedValues c !! i = Some v.
Proof.
  unfold predicates, orderedValues. split.
  - by rewrite length_imap, length_fmap.
  - intros i p v Hi.
    by rewrite list_lookup_imap, list_lookup_fmap, Hi.
Qed.

(** C4.  For a filter object that carries well-typed criteria with an
    ordered range, [findAll] sends one statement: the base query, then
    WHERE and the predicates joined by AND, then the ordering clause.
    There is one predicate and one value per present criterion, in the
    order name, minimum, maximum; the name predicate is ILIKE against
    [%name%], the bounds are [>=] and [<=], and the predicate at position
    [i] names parameter [$<i+1>], whose value is at position [i]. *)
Theorem findAll_where_clause (searchFilters : object) (c : company_criteria) :
  carries searchFilters c →
  ordered_range c →
  findAll searchFilters
  = Db.query (fullQuery base_query c) (orderedValues c)
  ∧ length (predicates c) = length (orderedValues c)
  ∧ ∀ (i : nat) (p : string) (v : value),
      criteria_list c !! i = Some (p, v) →
      predicates c !! i = Some (p +:+ " $" +:+ pretty (S i))
      ∧ orderedValues c !! i = Some v.
Proof.
  intros (Hn & Hlo & Hhi) Hr. split; [|apply criteria_aligned].
  rewrite findAll_unfold, Hn, Hlo, Hhi.
  destruct c as [[n|] [lo|] [hi|]];
    cbn [from_option by_name by_min by_max gt ToNumber ordered_range] in *;
    try (destruct (Z.ltb_spec hi lo); [lia|]);
    vm_compute; reflexivity.
Qed.

Lemma findAll_where_clause_witness :
  findAll [("name", VStr "net"); ("minEmployees", VNum 2);
           ("maxEmployees", VNum 3)]
  = Db.query
      (fullQuery base_query (CompanyCriteria (Some "net") (Some 2%Z) (Some 3%Z)))
      (orderedValues (CompanyCriteria (Some "net") (Some 2%Z) (Some 3%Z)))
  ∧ length (predicates (CompanyCriteria (Some "net") (Some 2%Z) (Some 3%Z)))
    = length (orderedValues (CompanyCriteria (Some "net") (Some 2%Z) (Some 3%Z)))
  ∧ ∀ (i : nat) (p : string) (v : value),
      criteria_list (CompanyCriteria (Some "net") (Some 2%Z) (Some 3%Z)) !! i
      = Some (p, v) →
      predicates (CompanyCriteria (Some "net") (Some 2%Z) (Some 3%Z)) !! i
      = Some (p +:+ " $" +:+ pretty (S i))
      ∧ orderedValues (CompanyCriteria (Some "net") (Some 2%Z) (Some 3%Z)) !! i
        = Some v.
Proof.
  apply (findAll_where_clause
           [("name", VStr "net"); ("minEmployees", VNum 2);
            ("maxEmployees", VNum 3)]
           (CompanyCriteria (Some "net") (Some 2%Z) (Some 3%Z))).
  - repeat split.
  - unfold ordered_range. simpl. lia.
Defined.

(** The statement of the witness, spelled out. *)
Example findAll_all_three :
  findAll [("name", VStr "net"); ("minEmployees", VNum 2);
           ("maxEmployees", VNum 3)]
  = Db.query
      (base_query
         +:+ " WHERE name ILIKE $1 AND num_employees >= $2 AND num_employees <= $3"
         +:+ " ORDER BY name")
      [VStr "%net%"; VNum 2; VNum 3].
Proof. vm_compute. reflexivity. Qed.

(** Each step of [findAll] adds a predicate and a value together. *)
Lemma compiled_lengths (name lo hi : value) :
  let st := add_max hi (add_min lo (add_name name
              {| whereStatements := []; values := [] |})) in
  length (whereStatements st) = length (values st).
Proof.
  assert (∀ st, length (whereStatements st) = length (values st) →
            ∀ v, length (whereStatements (add_name v st))
                 = length (values (add_name v st))
                 ∧ length (whereStatements (add_min v st))
                   = length (values (add_min v st))
                 ∧ length (whereStatements (add_max v st))
                   = length (values (add_max v st))) as Hstep.
  { intros st Hst v. unfold add_name, add_min, add_max, push.
    destruct (is_defined v); simpl; rewrite ?length_app, ?Hst; auto. }
  cbv zeta. apply Hstep, Hstep, Hstep. reflexivity.
Qed.

(** C6.  A filter object with no recognized criterion present (the empty
    object among them) makes [findAll] send exactly the base query followed
    by [ORDER BY name], with no WHERE clause and no parameter.  And
    whenever [findAll] sends a statement, with or without predicates, its
    text ends in the same ordering clause. *)
Theorem findAll_no_criteria (searchFilters : object) :
  JS.get searchFilters "name" = VUndefined →
  JS.get searchFilters "minEmployees" = VUndefined →
  JS.get searchFilters "maxEmployees" = VUndefined →
  findAll searchFilters = Db.query (base_query +:+ " ORDER BY name") []
  ∧ ∀ (o : object) (text : string) (params : list value)
      (k : list row → prog (list row)),
      findAll o = Query text params k →
      (params = [] ∧ text = base_query +:+ " ORDER BY name")
      ∨ (params ≠ [] ∧ ∃ ws : list string,
           length ws = length params
           ∧ text = (base_query +:+ " WHERE " +:+ join " AND " ws)
                      +:+ " ORDER BY name").
Proof.
  intros Hn Hlo Hhi. split.
  - rewrite findAll_unfold, Hn, Hlo, Hhi. reflexivity.
  - intros o text params k. rewrite findAll_unfold.
    destruct (gt _ _); [discriminate|].
    pose proof (compiled_lengths (JS.get o "name") (JS.get o "minEmployees")
                  (JS.get o "maxEmployees")) as Hlen.
    cbv zeta. unfold Db.query.
    destruct (add_max _ _) as [ws vs]. simpl in Hlen |- *.
    intros H. injection H as <- <-.
    destruct ws as [|w ws], vs as [|v vs]; try discriminate Hlen.
    + left. split; reflexivity.
    + right. split; [discriminate|]. exists (w :: ws). split; [exact Hlen|].
      reflexivity.
Qed.

Lemma findAll_no_criteria_witness :
  findAll [("nameLike", VStr "net"); ("limit", VNum 5)]
  = Db.query (base_query +:+ " ORDER BY name") []
  ∧ ∀ (o : object) (text : string) (params : list value)
      (k : list row → prog (list row)),
      findAll o = Query text params k →
      (params = [] ∧ text = base_query +:+ " ORDER BY name")
      ∨ (params ≠ [] ∧ ∃ ws : list string,
           length ws = length params
           ∧ text = (base_query +:+ " WHERE " +:+ join " AND " ws)
                      +:+ " ORDER BY name").
Proof.
  apply (findAll_no_criteria [("nameLike", VStr "net"); ("limit", VNum 5)]);
    reflexivity.
Defined.

(** Reading a recognized key sees the same value once the other keys are
    dropped. *)
Lemma get_only_recognized (o : object) (key : string) :
  recognized key = true →
  JS.get (only_recognized o) key = JS.get o key.
Proof.
  intros Hk. unfold JS.get. f_equal.
  induction o as [|[k' v] o IH]; [reflexivity|].
  unfold only_recognized in *. simpl.
  destruct (String.eqb_spec k' key) as [->|Hne].
  - rewrite Hk. simpl. by rewrite String.eqb_refl.
  - destruct (recognized k'); [simpl|exact IH].
    destruct (String.eqb_spec k' key); [congruence|exact IH].
Qed.

(** C7.  Keys other than [name], [minEmployees] and [maxEmployees] are
    ignored: [findAll] on a filter object is [findAll] on the same object
    with every unrecognized key removed, be it an error, or a statement
    with its text and its parameters. *)
Theorem findAll_ignores_unrecognized (searchFilters : object) :
  findAll searchFilters = findAll (only_recognized searchFilters).
Proof.
  rewrite !findAll_unfold.
  rewrite !get_only_recognized by reflexivity. reflexivity.
Qed.

(** A name alone gives one predicate, the containment. *)
Example findAll_name_only :
  findAll [("name", VStr "net")]
  = Db.query (base_query +:+ " WHERE name ILIKE $1" +:+ " ORDER BY name")
             [VStr "%net%"].
Proof. vm_compute. reflexivity. Qed.

(** The comparison of the guard on values that are not two numbers. *)
Example gt_cases :
  gt (VNum 50) (VNum 10) = true
  ∧ gt (VNum 3) VUndefined = false
  ∧ gt VUndefined (VNum 3) = false
  ∧ gt (VStr "9") (VStr "10") = true
  ∧ gt (VStr "10") (VNum 9) = true.
Proof. repeat split. Qed.

(** [findAll()] is [findAll({})]. *)
Example findAll_default_query :
  findAll_default = Db.query (base_query +:+ " ORDER BY name") [].
Proof. reflexivity. Qed.

Example findAll_unrecognized_key :
  findAll [("name", VStr "net"); ("notValid", VStr "fake")]
  = findAll [("name", VStr "net")].
Proof. reflexivity. Qed.

End CompanyFilter.

(** ** Zero rows after a mutation *)

Section NotFound.
Import JS Db Sql.

(** The statement [Company.update] sends for a non-empty [data]. *)
Lemma update_nonempty (h : string) (data : object) :
  data ≠ [] →
  Company.update h data
  = Query
      (Company.update_query (join ", " (cols data Company.jsToSql))
                            ("$" +:+ pretty (length data.*2 + 1)%nat))
      (data.*2 ++ [VStr h])
      (λ result,
         match result !! 0%nat with
         | None => Throw (NotFoundError ("No company: " +:+ h))
         | Some company => Ret company
         end).
Proof.
  intros Hd. unfold Company.update.
  rewrite sqlForPartialUpdate_nonempty by exact Hd. reflexivity.
Qed.

Lemma update_empty (h : string) :
  Company.update h [] = Throw (BadRequestError "No data").
Proof. reflexivity. Qed.

(** C9.  Under any server, [Company.update] ends in [NotFoundError]
    exactly when it has a statement to send (the data is not empty) and
    the server answers that statement with no row, and [Company.remove]
    ends in [NotFoundError] exactly when the server answers its DELETE
    with no row.  The compiler itself never throws [NotFoundError]. *)
Theorem company_not_found
    (W : Type) (db : client W) (w : W) (h : string) (data : object) :
  ((run db (Company.update h data) w).1
     = Thrown (NotFoundError ("No company: " +:+ h))
   ↔ data ≠ []
     ∧ (db (Company.update_query
              (join ", " (cols data Company.jsToSql))
              ("$" +:+ pretty (length data.*2 + 1)%nat))
           (data.*2 ++ [VStr h]) w).1 = Rows [])
  ∧ ((run db (Company.remove h) w).1
       = Thrown (NotFoundError ("No company: " +:+ h))
     ↔ (db Company.remove_query [VStr h] w).1 = Rows [])
  ∧ ∀ (m : gmap string string) (message : string),
      sqlForPartialUpdate data m ≠ Thrown (NotFoundError message).
Proof.
  split; [|split].
  - destruct data as [|kv data].
    + rewrite update_empty. simpl. split; [discriminate|].
      intros [Hd _]. congruence.
    + rewrite update_nonempty by discriminate.
      cbn [run]. destruct (db _ _ w) as [[[|r rows]|message] w']; simpl.
      * split; [intros _; split; [discriminate|reflexivity] | reflexivity].
      * split; [discriminate | intros [_ H]; discriminate H].
      * split; [discriminate | intros [_ H]; discriminate H].
  - unfold Company.remove, Db.query. cbn [mbind prog_bind bind run].
    destruct (db _ _ w) as [[[|r rows]|message] w']; simpl.
    + split; reflexivity.
    + split; discriminate.
    + split; discriminate.
  - intros m message. unfold sqlForPartialUpdate.
    destruct (Nat.eqb _ _); discriminate.
Qed.

(** A server that finds no row, and one that returns the row it is asked
    to change. *)
Example update_unknown_handle :
  (run (λ _ _ w, (Rows [], w)) (Company.update "nope" [("name", VStr "x")]) tt).1
  = Thrown (NotFoundError "No company: nope")
  ∧ (run (λ _ _ w, (Rows [], w)) (Company.remove "nope") tt).1
    = Thrown (NotFoundError "No company: nope")
  ∧ (run (λ _ _ w, (Rows [], w)) (Company.update "nope" []) tt).1
    = Thrown (BadRequestError "No data").
Proof. repeat split. Qed.

Example update_known_handle :
  (run (λ _ _ w, (Rows [[("handle", VStr "c1")]], w))
       (Company.update "c1" [("name", VStr "x")]) tt).1
  = Normal [("handle", VStr "c1")]
  ∧ (run (λ _ _ w, (Rows [[("handle", VStr "c1")]], w))
         (Company.remove "c1") tt).1
    = Normal tt.
Proof. repeat split. Qed.

End NotFound.

(** ** [Company.get] on a company without jobs *)

Section CompanyGet.
Import JS Db Postgres.

(** What [get] returns from the rows of the join. *)
Lemma run_get (h : string) (d : database) :
  run server (Company.get h) d
  = (match select_join h d with
     | [] => Thrown (NotFoundError ("No company: " +:+ h))
     | row0 :: _ =>
         Normal {| Company.handle := JS.get row0 "handle";
                   Company.name := JS.get row0 "name";
                   Company.description := JS.get row0 "description";
                   Company.numEmployees := JS.get row0 "numEmployees";
                   Company.logoUrl := JS.get row0 "logoUrl";
                   Company.jobs :=
                     Company.job_of_row <$> select_join h d |}
     end, d).
Proof.
  unfold Company.get, Db.query.
  cbn [mbind prog_bind bind run server].
  change (String.eqb Company.get_lookup_query Company.get_lookup_query)
    with true.
  change (String.eqb Company.get_join_query Company.get_lookup_query)
    with false.
  change (String.eqb Company.get_join_query Company.get_join_query)
    with true.
  cbn [run]. destruct (select_join h d); reflexivity.
Qed.

Lemma filter_flat_map {A B : Type} (p : B → bool) (f : A → list B)
    (l : list A) :
  List.filter p (flat_map f l) = flat_map (λ x, List.filter p (f x)) l.
Proof.
  induction l as [|x l IH]; [reflexivity|].
  simpl. by rewrite List.filter_app, IH.
Qed.

Lemma where_company_part (h : string) (js : list job_row) (c : company_row) :
  List.filter (where_handle h) (company_part js c)
  = if String.eqb (c_handle c) h then company_part js c else [].
Proof.
  assert (∀ l : list (option company_row * option job_row),
            Forall (λ r, r.1 = Some c) l →
            List.filter (where_handle h) l
            = if String.eqb (c_handle c) h then l else []) as Hall.
  { intros l Hl. induction Hl as [|r l Hr _ IH]; simpl.
    - by destruct (String.eqb _ _).
    - unfold where_handle at 1. rewrite Hr, IH.
      by destruct (String.eqb _ _). }
  apply Hall. unfold company_part.
  destruct (List.filter (on_handle c) js) as [|j partners].
  - by repeat constructor.
  - apply Forall_fmap, Forall_true. reflexivity.
Qed.

Lemma where_unmatched_jobs (h : string) (js : list job_row) :
  List.filter (where_handle h) ((λ j, (None, Some j)) <$> js) = [].
Proof. induction js as [|j js IH]; [reflexivity | exact IH]. Qed.

Lemma no_partner (c : company_row) (js : list job_row) :
  (∀ j, j ∈ js → j_company_handle j ≠ Some (c_handle c)) →
  List.filter (on_handle c) js = [].
Proof.
  induction js as [|j js IH]; intros Hjs; [reflexivity|].
  simpl. unfold on_handle at 1.
  destruct (j_company_handle j) as [h'|] eqn:Hj.
  - destruct (String.eqb_spec (c_handle c) h') as [Heq|_].
    + exfalso. apply (Hjs j); [left | by rewrite Heq].
    + apply IH. intros j' Hj'. apply Hjs. by right.
  - apply IH. intros j' Hj'. apply Hjs. by right.
Qed.

(** With handles as a key, the WHERE clause keeps the part of one
    company. *)
Lemma where_full_join (c : company_row) (cs : list company_row)
    (js : list job_row) :
  c ∈ cs →
  NoDup (c_handle <$> cs) →
  List.filter (where_handle (c_handle c)) (full_join cs js)
  = company_part js c.
Proof.
  intros Hc Hkey. unfold full_join.
  rewrite List.filter_app, where_unmatched_jobs, app_nil_r.
  rewrite filter_flat_map.
  induction cs as [|c' cs IH]; [by apply elem_of_nil in Hc|].
  simpl. rewrite where_company_part.
  apply NoDup_cons in Hkey as [Hfresh Hkey].
  apply elem_of_cons in Hc as [<-|Hc].
  - rewrite String.eqb_refl.
    assert (flat_map (λ x, List.filter (where_handle (c_handle c))
                             (company_part js x)) cs = []) as ->;
      [|by rewrite app_nil_r].
    clear IH Hkey. induction cs as [|c'' cs IH]; [reflexivity|].
    simpl. rewrite where_company_part.
    destruct (String.eqb_spec (c_handle c'') (c_handle c)) as [Heq|_].
    + exfalso. apply Hfresh. rewrite <- Heq. simpl. left.
    + simpl. apply IH. intros Hin. apply Hfresh. simpl. by right.
  - destruct (String.eqb_spec (c_handle c') (c_handle c)) as [Heq|_].
    + exfalso. apply Hfresh. rewrite Heq.
      by apply (list_elem_of_fmap_2 c_handle).
    + simpl. by apply IH.
Qed.

(** C10.  For a company that is in the table, with handles a key and no
    job pointing at it, [Company.get] returns the company with a [jobs]
    list of one entry whose [id], [title], [salary] and [equity] are all
    null, not an empty list: the FULL JOIN pads the company's row with a
    NULL job. *)
Theorem get_company_without_jobs (d : database) (c : company_row) :
  c ∈ companies d →
  NoDup (c_handle <$> companies d) →
  (∀ j, j ∈ jobs d → j_company_handle j ≠ Some (c_handle c)) →
  run server (Company.get (c_handle c)) d
  = (Normal {| Company.handle := VStr (c_handle c);
               Company.name := c_name c;
               Company.description := c_description c;
               Company.numEmployees := c_num_employees c;
               Company.logoUrl := c_logo_url c;
               Company.jobs :=
                 [ {| Company.id := VNull; Company.title := VNull;
                      Company.salary := VNull; Company.equity := VNull |} ]
            |}, d).
Proof.
  intros Hc Hkey Hjobs. rewrite run_get. unfold select_join.
  rewrite where_full_join by assumption.
  unfold company_part. rewrite no_partner by assumption.
  reflexivity.
Qed.

Lemma get_company_without_jobs_witness :
  run server (Company.get "c2") store
  = (Normal {| Company.handle := VStr "c2";
               Company.name := VStr "C2";
               Company.description := VStr "Desc2";
               Company.numEmployees := VNum 2;
               Company.logoUrl := VNull;
               Company.jobs :=
                 [ {| Company.id := VNull; Company.title := VNull;
                      Company.salary := VNull; Company.equity := VNull |} ]
            |}, store).
Proof.
  apply (get_company_without_jobs store c2).
  - right. left.
  - apply (bool_decide_unpack (NoDup ["c1"; "c2"])). vm_compute. reflexivity.
  - intros j Hj. apply list_elem_of_singleton in Hj. subst j. discriminate.
Defined.

(** The company that has a job gets that job, and a handle that is not in
    the table is not found. *)
Example get_company_with_job :
  (run server (Company.get "c1") store).1
  = Normal {| Company.handle := VStr "c1";
              Company.name := VStr "C1";
              Company.description := VStr "Desc1";
              Company.numEmployees := VNum 1;
              Company.logoUrl := VStr "http://c1.img";
              Company.jobs :=
                [ {| Company.id := VNum 1; Company.title := VStr "J1";
                     Company.salary := VNum 150000;
                     Company.equity := VStr "0.01" |} ] |}.
Proof. vm_compute. reflexivity. Qed.

Example get_company_unknown :
  (run server (Company.get "nope") store).1
  = Thrown (NotFoundError "No company: nope").
Proof. vm_compute. reflexivity. Qed.

End CompanyGet.

(** ** The gate of the [/users/:username] routes *)

Section Gate.
Import JS Db Auth UsersRoutes.

(** C8.  For every claims object and route identity the policy allows
    exactly when the claims are elevated or their identity is the route
    identity, and denies otherwise.  A denied request ends in the
    unauthorized signal whatever the handler is: the four routes under
    [/users/:username] then call no model method and send no statement,
    under any user model, validator and server. *)
Theorem ensureUserOrAdmin_decision (c : claims) (routeIdentity : string) :
  (ensureUserOrAdmin (Some c) routeIdentity = Allowed
   ↔ isElevated c = true ∨ identity c = routeIdentity)
  ∧ (ensureUserOrAdmin (Some c) routeIdentity = Denied
     ↔ ¬ (isElevated c = true ∨ identity c = routeIdentity))
  ∧ ∀ (req : request),
      locals_user req = Some c →
      params_username req = routeIdentity →
      ensureUserOrAdmin (Some c) routeIdentity = Denied →
      (∀ (A : Type) (handler : request → prog A),
         guarded userOrAdmin handler req = Throw UnauthorizedError)
      ∧ ∀ (user application : Type)
          (User_get : string → prog user)
          (User_update : string → object → prog user)
          (User_getApplication : string → string → prog (option application))
          (User_apply : string → string → prog value)
          (User_remove : string → prog unit)
          (userUpdate_errors : object → option string),
          get_user User_get req = Throw UnauthorizedError
          ∧ patch_user User_update userUpdate_errors req
            = Throw UnauthorizedError
          ∧ post_application (user:=user) User_getApplication User_apply req
            = Throw UnauthorizedError
          ∧ delete_user (user:=user) User_remove req = Throw UnauthorizedError
          ∧ ∀ (W : Type) (db : client W) (w : W),
              statements db (get_user User_get req) w = []
              ∧ statements db
                  (patch_user User_update userUpdate_errors req) w = []
              ∧ statements db
                  (post_application (user:=user) User_getApplication User_apply req) w
                = []
              ∧ statements db (delete_user (user:=user) User_remove req) w = [].
Proof.
  assert (ensureUserOrAdmin (Some c) routeIdentity = Allowed
          ↔ isElevated c = true ∨ identity c = routeIdentity) as Hallow.
  { unfold ensureUserOrAdmin.
    destruct (isElevated c); simpl; [by split; auto|].
    destruct (String.eqb_spec (identity c) routeIdentity); split;
      try discriminate; auto.
    intros [?|?]; [discriminate | contradiction]. }
  split; [exact Hallow|]. split.
  - rewrite <- Hallow.
    destruct (ensureUserOrAdmin (Some c) routeIdentity); split;
      try discriminate; auto.
    intros H. by contradiction H.
  - intros req Hc Hr Hdenied.
    assert (∀ (A : Type) (handler : request → prog A),
              guarded userOrAdmin handler req = Throw UnauthorizedError)
      as Hguard.
    { intros A handler. unfold guarded, userOrAdmin.
      by rewrite Hc, Hr, Hdenied. }
    split; [exact Hguard|]. intros.
    unfold get_user, patch_user, post_application, delete_user.
    rewrite !Hguard. repeat split.
Qed.

End Gate.

(** The three cases the specification lists for the policy bound to
    ["bob"]. *)
Lemma ensureUserOrAdmin_bob :
  Auth.ensureUserOrAdmin (Some (Auth.Claims "alice" false)) "bob"
  = Auth.Denied
  ∧ Auth.ensureUserOrAdmin (Some (Auth.Claims "alice" true)) "bob"
    = Auth.Allowed
  ∧ Auth.ensureUserOrAdmin (Some (Auth.Claims "bob" false)) "bob"
    = Auth.Allowed.
Proof.
  split; [|split].
  - apply (proj1 (proj2 (ensureUserOrAdmin_decision
                           (Auth.Claims "alice" false) "bob"))).
    intros [H|H]; discriminate H.
  - apply (proj1 (ensureUserOrAdmin_decision
                    (Auth.Claims "alice" true) "bob")).
    left. reflexivity.
  - apply (proj1 (ensureUserOrAdmin_decision
                    (Auth.Claims "bob" false) "bob")).
    right. reflexivity.
Defined.

(** Without claims on the request the policy denies. *)
Example ensureUserOrAdmin_anonymous :
  Auth.ensureUserOrAdmin None "bob" = Auth.Denied.
Proof. reflexivity. Qed.

(** ** The equity flag of the job search *)

Section JobEquity.
Import Job.

Lemma keeps_with_flag (c : criteria) (j : job) :
  hasEquity c = Some true →
  keeps c j = keeps (without_equity_flag c) j && holds j EquityPositive.
Proof.
  intros Hflag. unfold keeps, compile. rewrite Hflag.
  cbn [without_equity_flag title minSalary hasEquity].
  destruct (title c), (minSalary c); cbn [app forallb];
    repeat (destruct (holds j _)); reflexivity.
Qed.

Lemma compile_without_flag (c : criteria) :
  hasEquity c ≠ Some true →
  compile c = compile (without_equity_flag c).
Proof.
  intros Hflag. unfold compile. simpl.
  destruct (hasEquity c) as [[|]|]; [congruence|reflexivity..].
Qed.

Lemma holds_positive (j : job) :
  holds j EquityPositive = true ↔ ∃ q, job_equity j = Some q ∧ (0 < q)%Qc.
Proof.
  simpl. destruct (job_equity j) as [q|].
  - rewrite bool_decide_eq_true. split; [eauto|].
    by intros (q' & [= <-] & Hq).
  - split; [discriminate|]. by intros (q' & [=] & _).
Qed.

Lemma elem_of_matching (c : criteria) (table : list job) (j : job) :
  j ∈ matching c table ↔ j ∈ table ∧ keeps c j = true.
Proof. unfold matching. by rewrite !list_elem_of_In, filter_In. Qed.

Lemma holds_title (j : job) (t : string) :
  holds j (TitleContains t)
  = contains (lowercase t) (lowercase (job_title j)).
Proof. reflexivity. Qed.

Lemma holds_salary (j : job) (n : Z) :
  holds j (SalaryAtLeast n) = true
  ↔ ∃ s, job_salary j = Some s ∧ (n ≤ s)%Z.
Proof.
  simpl. destruct (job_salary j) as [s|].
  - rewrite Z.leb_le. split; [eauto|]. by intros (s' & [= <-] & Hs).
  - split; [discriminate|]. by intros (s' & [=] & _).
Qed.

(** What the criteria other than the equity flag ask of a row. *)
Lemma keeps_without_flag (c : criteria) (j : job) :
  keeps (without_equity_flag c) j = true
  ↔ match title c with
    | Some t => contains (lowercase t) (lowercase (job_title j)) = true
    | None => True
    end
    ∧ match minSalary c with
      | Some n => ∃ s, job_salary j = Some s ∧ (n ≤ s)%Z
      | None => True
      end.
Proof.
  unfold keeps, compile. cbn [without_equity_flag title minSalary hasEquity].
  rewrite app_nil_r.
  destruct (title c) as [t|], (minSalary c) as [n|]; cbn [app forallb];
    rewrite ?andb_true_r, ?andb_true_iff, ?holds_title, ?holds_salary;
    tauto.
Qed.

(** C5.  With [hasEquity] true the rows the search returns are exactly
    the rows of the table that pass the title and salary criteria and
    whose equity is non-null and greater than zero: every such row is
    included, every other row is excluded.  With [hasEquity] false or
    absent no equity predicate is compiled: the rows returned are exactly
    the rows of the table that pass the title and salary criteria, all
    rows of the table when there is no such criterion, and whether a row
    is kept does not depend on its equity, null and zero included. *)
Theorem hasEquity_filter (c : criteria) (table : list job) (j : job) :
  (hasEquity c = Some true →
   (j ∈ matching c table)
   ↔ (j ∈ table
      ∧ match title c with
        | Some t => contains (lowercase t) (lowercase (job_title j)) = true
        | None => True
        end
      ∧ match minSalary c with
        | Some n => ∃ s, job_salary j = Some s ∧ (n ≤ s)%Z
        | None => True
        end
      ∧ ∃ q, job_equity j = Some q ∧ (0 < q)%Qc))
  ∧ (hasEquity c ≠ Some true →
     (EquityPositive ∉ compile c)
     ∧ ((j ∈ matching c table)
        ↔ (j ∈ table
           ∧ match title c with
             | Some t =>
                 contains (lowercase t) (lowercase (job_title j)) = true
             | None => True
             end
           ∧ match minSalary c with
             | Some n => ∃ s, job_salary j = Some s ∧ (n ≤ s)%Z
             | None => True
             end))
     ∧ (title c = None → minSalary c = None → matching c table = table)
     ∧ matching c table = matching (without_equity_flag c) table
     ∧ ∀ e : option Qc, keeps c (with_equity e j) = keeps c j).
Proof.
  split.
  - intros Hflag.
    rewrite elem_of_matching, keeps_with_flag by exact Hflag.
    rewrite andb_true_iff, holds_positive, keeps_without_flag. tauto.
  - intros Hflag.
    assert (Forall (λ p, p ≠ EquityPositive) (compile c)) as Hnone.
    { rewrite compile_without_flag by exact Hflag. unfold compile. simpl.
      destruct (title c), (minSalary c); repeat constructor; discriminate. }
    assert (matching c table = matching (without_equity_flag c) table)
      as Hsame.
    { unfold matching, keeps. by rewrite compile_without_flag. }
    split; [|split; [|split; [|split]]].
    + intros Hin. rewrite Forall_forall in Hnone. by apply (Hnone _ Hin).
    + rewrite Hsame, elem_of_matching, keeps_without_flag. tauto.
    + intros Ht Hs. rewrite Hsame. unfold matching, keeps, compile.
      cbn [without_equity_flag title minSalary hasEquity].
      rewrite Ht, Hs. cbn [app forallb]. clear.
      induction table as [|j' table IH]; [reflexivity|].
      simpl. by rewrite IH.
    + exact Hsame.
    + intros e. unfold keeps.
      induction Hnone as [|p ps Hp _ IH]; [reflexivity|].
      simpl. rewrite IH. f_equal. by destruct p.
Qed.

Lemma hasEquity_filter_witness :
  ((J3 ∈ matching (Criteria (Some "j") None (Some true)) [J1; J2; J3])
   ↔ (J3 ∈ [J1; J2; J3]
      ∧ contains (lowercase "j") (lowercase (job_title J3)) = true
      ∧ True
      ∧ ∃ q, job_equity J3 = Some q ∧ (0 < q)%Qc))
  ∧ ((EquityPositive ∉ compile (Criteria None None (Some false)))
     ∧ ((J2 ∈ matching (Criteria None None (Some false)) [J1; J2; J3])
        ↔ (J2 ∈ [J1; J2; J3] ∧ True ∧ True))
     ∧ (title (Criteria None None (Some false)) = None →
        minSalary (Criteria None None (Some false)) = None →
        matching (Criteria None None (Some false)) [J1; J2; J3]
        = [J1; J2; J3])
     ∧ matching (Criteria None None (Some false)) [J1; J2; J3]
       = matching (Criteria None None None) [J1; J2; J3]
     ∧ ∀ e : option Qc,
         keeps (Criteria None None (Some false)) (with_equity e J2)
         = keeps (Criteria None None (Some false)) J2).
Proof.
  split.
  - apply (proj1 (hasEquity_filter (Criteria (Some "j") None (Some true))
                    [J1; J2; J3] J3)).
    reflexivity.
  - apply (proj2 (hasEquity_filter (Criteria None None (Some false))
                    [J1; J2; J3] J2)).
    discriminate.
Defined.

(** A zero equity is dropped by the flag and kept without it. *)
Example job_zero_equity :
  matching (Criteria None None (Some true))
           [with_equity (Some (Q2Qc 0)) J1; J2; J3] = [J3]
  ∧ matching (Criteria None None (Some false))
             [with_equity (Some (Q2Qc 0)) J1; J2; J3]
    = [with_equity (Some (Q2Qc 0)) J1; J2; J3].
Proof. split; vm_compute; reflexivity. Qed.

End JobEquity.

(** * Further properties of the company model and the routes *)

(** ** Running a program that is a sequence *)

Section Sequencing.
Import JS Db.

Lemma run_bind {W A B : Type} (db : client W) (p : prog A) (f : A → prog B)
    (w : W) :
  run db (bind p f) w
  = match run db p w with
    | (Normal a, w') => run db (f a) w'
    | (Thrown e, w') => (Thrown e, w')
    end.
Proof.
  revert w. induction p as [a|e|text params k IH|rows k IH]; intros w;
    simpl; try reflexivity.
  - destruct (db text params w) as [[rows|message] w']; [apply IH|reflexivity].
  - apply IH.
Qed.

Lemma statements_bind {W A B : Type} (db : client W) (p : prog A)
    (f : A → prog B) (w : W) :
  statements db (bind p f) w
  = statements db p w
    ++ match run db p w with
       | (Normal a, w') => statements db (f a) w'
       | (Thrown _, _) => []
       end.
Proof.
  revert w. induction p as [a|e|text params k IH|rows k IH]; intros w;
    simpl; try reflexivity.
  - f_equal.
    destruct (db text params w) as [[rows|message] w']; [apply IH|reflexivity].
  - apply IH.
Qed.

End Sequencing.

(** ** [Company.create] *)

Section CompanyCreate.
Import JS Db.

(** [create] after the answer to its first statement. *)
Lemma create_unfold (data : object) :
  Company.create data
  = Query Company.create_check_query [JS.get data "handle"]
      (λ duplicateCheck,
         match duplicateCheck !! 0%nat with
         | Some _ =>
             Throw (BadRequestError
                      ("Duplicate company: "
                         +:+ ToString (JS.get data "handle")))
         | None =>
             Query Company.create_insert_query (Company.create_params data)
                   (λ result, Ret (result !! 0%nat))
         end).
Proof. reflexivity. Qed.

(** X1.  Under any server, [create] ends in [BadRequestError "Duplicate
    company: <handle>"] exactly when the server answers the duplicate
    check with at least one row; the check is then the only statement
    sent, so the INSERT never runs. *)
Theorem create_duplicate
    (W : Type) (db : client W) (w : W) (data : object) :
  ((run db (Company.create data) w).1
     = Thrown (BadRequestError
                 ("Duplicate company: " +:+ ToString (JS.get data "handle")))
   ↔ ∃ (r : row) (rows : list row),
       (db Company.create_check_query [JS.get data "handle"] w).1
       = Rows (r :: rows))
  ∧ ∀ (r : row) (rows : list row) (w1 : W),
      db Company.create_check_query [JS.get data "handle"] w
      = (Rows (r :: rows), w1) →
      statements db (Company.create data) w
      = [(Company.create_check_query, [JS.get data "handle"])]
      ∧ run db (Company.create data) w
        = (Thrown (BadRequestError
                     ("Duplicate company: "
                        +:+ ToString (JS.get data "handle"))), w1).
Proof.
  rewrite create_unfold. cbn [run statements]. split.
  - destruct (db Company.create_check_query _ w)
      as [[[|r rows]|message] w1]; cbn [run lookup list_lookup fst].
    + destruct (db Company.create_insert_query _ w1) as [[rows|message] w2];
        simpl; (split; [discriminate | intros (r & rows' & [=])]).
    + split; [eauto | reflexivity].
    + simpl. split; [discriminate | intros (r & rows' & [=])].
  - intros r rows w1 ->. split; reflexivity.
Qed.

(** X2.  When the duplicate check comes back empty, [create] sends the
    check and then the INSERT, whose five parameters are [handle], [name],
    [description], [numEmployees] and [logoUrl] of the data in that order,
    and returns the first row of the INSERT's answer ([undefined] when
    there is none); a failure of the INSERT is passed on. *)
Theorem create_fresh
    (W : Type) (db : client W) (w w1 : W) (data : object) :
  db Company.create_check_query [JS.get data "handle"] w = (Rows [], w1) →
  statements db (Company.create data) w
  = [ (Company.create_check_query, [JS.get data "handle"]);
      (Company.create_insert_query,
       [ JS.get data "handle"; JS.get data "name";
         JS.get data "description"; JS.get data "numEmployees";
         JS.get data "logoUrl" ]) ]
  ∧ run db (Company.create data) w
    = match db Company.create_insert_query (Company.create_params data) w1
      with
      | (Rows rows, w2) => (Normal (rows !! 0%nat), w2)
      | (Failed message, w2) => (Thrown (DbError message), w2)
      end.
Proof.
  intros Hcheck. rewrite create_unfold. cbn [run statements].
  rewrite Hcheck. cbn [run statements lookup list_lookup].
  split.
  - unfold Company.create_params.
    by destruct (db Company.create_insert_query _ w1) as [[rows|message] w2].
  - by destruct (db Company.create_insert_query _ w1) as [[rows|message] w2].
Qed.

(** A server over a counter: no row for the first statement, the row
    [{handle: "new"}] for every later one. *)
Lemma create_fresh_witness :
  statements
    (λ _ _ (n : nat),
       (if Nat.eqb n 0 then Rows [] else Rows [[("handle", VStr "new")]],
        S n))
    (Company.create [("handle", VStr "new"); ("name", VStr "New")]) 0%nat
  = [ (Company.create_check_query, [VStr "new"]);
      (Company.create_insert_query,
       [ VStr "new"; VStr "New"; VUndefined; VUndefined; VUndefined ]) ]
  ∧ run
      (λ _ _ (n : nat),
         (if Nat.eqb n 0 then Rows [] else Rows [[("handle", VStr "new")]],
          S n))
      (Company.create [("handle", VStr "new"); ("name", VStr "New")]) 0%nat
    = (Normal (Some [("handle", VStr "new")]), 2%nat).
Proof.
  apply (create_fresh nat
           (λ _ _ (n : nat),
              (if Nat.eqb n 0 then Rows []
               else Rows [[("handle", VStr "new")]], S n))
           0%nat 1%nat
           [("handle", VStr "new"); ("name", VStr "New")]).
  reflexivity.
Defined.

End CompanyCreate.

(** ** Values travel as parameters, never in the text *)

Section Parameterized.
Import JS Db Sql.

Lemma cols_of_keys (d d' : object) (m : gmap string string) :
  keys d = keys d' → cols d m = cols d' m.
Proof. unfold cols. by intros ->. Qed.

(** X3.  The SET clause is a function of the keys alone: two field-sets
    with the same keys in the same order compile to the same [setCols]
    whatever their values, and [Company.update] sends the same statement
    text for them, whatever the two handles; only the parameters
    differ. *)
Theorem update_text_of_keys (h h' : string) (d d' : object) :
  d ≠ [] →
  keys d = keys d' →
  ∃ (text : string) (r r' : update_sql)
    (k k' : list row → prog row),
    sqlForPartialUpdate d Company.jsToSql = Normal r
    ∧ sqlForPartialUpdate d' Company.jsToSql = Normal r'
    ∧ setCols r = setCols r'
    ∧ Company.update h d = Query text (d.*2 ++ [VStr h]) k
    ∧ Company.update h' d' = Query text (d'.*2 ++ [VStr h']) k'.
Proof.
  intros Hd Hkeys.
  assert (d' ≠ []) as Hd'.
  { intros ->. destruct d; [congruence | discriminate Hkeys]. }
  assert (length d.*2 = length d'.*2) as Hlen.
  { rewrite !length_fmap.
    apply (f_equal length) in Hkeys. unfold keys in Hkeys.
    by rewrite !length_fmap in Hkeys. }
  do 5 eexists.
  rewrite !sqlForPartialUpdate_nonempty by assumption.
  rewrite (update_nonempty h d), (update_nonempty h' d') by assumption.
  rewrite <- (cols_of_keys d d') by exact Hkeys. rewrite <- Hlen.
  repeat split.
Qed.

Lemma update_text_of_keys_witness :
  ∃ (text : string) (r r' : update_sql)
    (k k' : list row → prog row),
    sqlForPartialUpdate [("name", VStr "a"); ("numEmployees", VNum 1)]
                        Company.jsToSql = Normal r
    ∧ sqlForPartialUpdate [("name", VStr "x' --"); ("numEmployees", VNull)]
                          Company.jsToSql = Normal r'
    ∧ setCols r = setCols r'
    ∧ Company.update "c1" [("name", VStr "a"); ("numEmployees", VNum 1)]
      = Query text ([VStr "a"; VNum 1] ++ [VStr "c1"]) k
    ∧ Company.update "c2" [("name", VStr "x' --"); ("numEmployees", VNull)]
      = Query text ([VStr "x' --"; VNull] ++ [VStr "c2"]) k'.
Proof.
  apply (update_text_of_keys "c1" "c2"
           [("name", VStr "a"); ("numEmployees", VNum 1)]
           [("name", VStr "x' --"); ("numEmployees", VNull)]).
  - discriminate.
  - reflexivity.
Defined.

(** The predicates [findAll] collects depend on which criteria are
    defined, not on what they hold. *)
Lemma whereStatements_of_defined (n lo hi n' lo' hi' : value) :
  is_defined n = is_defined n' →
  is_defined lo = is_defined lo' →
  is_defined hi = is_defined hi' →
  Company.whereStatements
    (Company.add_max hi (Company.add_min lo (Company.add_name n
       {| Company.whereStatements := []; Company.values := [] |})))
  = Company.whereStatements
      (Company.add_max hi' (Company.add_min lo' (Company.add_name n'
         {| Company.whereStatements := []; Company.values := [] |}))).
Proof.
  unfold Company.add_max, Company.add_min, Company.add_name.
  intros <- <- <-.
  destruct (is_defined n), (is_defined lo), (is_defined hi);
    cbn [Company.whereStatements Company.values push app length];
    reflexivity.
Qed.

(** X4.  The text [findAll] sends is a function of which of [name],
    [minEmployees] and [maxEmployees] are defined: two filter objects that
    define the same criteria get the same statement text whatever the
    values, which go to the parameter list only. *)
Theorem findAll_text_of_defined (o o' : object)
    (text text' : string) (params params' : list value)
    (k k' : list row → prog (list row)) :
  is_defined (JS.get o "name") = is_defined (JS.get o' "name") →
  is_defined (JS.get o "minEmployees")
  = is_defined (JS.get o' "minEmployees") →
  is_defined (JS.get o "maxEmployees")
  = is_defined (JS.get o' "maxEmployees") →
  Company.findAll o = Query text params k →
  Company.findAll o' = Query text' params' k' →
  text = text' ∧ length params = length params'.
Proof.
  intros Hn Hlo Hhi. rewrite !findAll_unfold.
  destruct (gt _ _); [discriminate|].
  destruct (gt _ _); [discriminate|].
  cbv zeta. unfold Db.query.
  pose proof (whereStatements_of_defined _ _ _ _ _ _ Hn Hlo Hhi) as Hws.
  pose proof (compiled_lengths (JS.get o "name") (JS.get o "minEmployees")
                (JS.get o "maxEmployees")) as Hlen.
  pose proof (compiled_lengths (JS.get o' "name") (JS.get o' "minEmployees")
                (JS.get o' "maxEmployees")) as Hlen'.
  cbv zeta in Hlen, Hlen'.
  intros [= <- <- _] [= <- <- _].
  rewrite <- Hlen, <- Hlen', Hws. split; reflexivity.
Qed.

Lemma findAll_text_of_defined_witness :
  Company.base_query +:+ " WHERE name ILIKE $1 AND num_employees <= $2"
    +:+ " ORDER BY name"
  = Company.base_query +:+ " WHERE name ILIKE $1 AND num_employees <= $2"
      +:+ " ORDER BY name"
  ∧ length [VStr "%net%"; VNum 10] = length [VStr "%'; --%"; VNum 0].
Proof.
  apply (findAll_text_of_defined
           [("name", VStr "net"); ("maxEmployees", VNum 10)]
           [("maxEmployees", VNum 0); ("name", VStr "'; --")]
           _ _ _ _ Ret Ret);
    vm_compute; reflexivity.
Defined.

End Parameterized.

(** ** [Company.findAll]: when it rejects, and what it returns *)

Section FindAllOutcome.
Import JS Db.

(** A comparison with [undefined] is a comparison with NaN. *)
Lemma gt_undefined (v : value) :
  gt VUndefined v = false ∧ gt v VUndefined = false.
Proof.
  split.
  - by destruct v.
  - destruct v as [| |b|n|s]; try reflexivity.
    unfold gt, ToNumber. by destruct (StringToNumber s).
Qed.

(** X5.  The range check needs both bounds: a filter object in which
    [minEmployees] or [maxEmployees] is missing or [undefined] is never
    rejected, whatever the other bound and the other keys hold;
    [findAll] goes on to send its statement. *)
Theorem findAll_one_bound (searchFilters : object) :
  JS.get searchFilters "minEmployees" = VUndefined
  ∨ JS.get searchFilters "maxEmployees" = VUndefined →
  ∃ (text : string) (params : list value),
    Company.findAll searchFilters = Db.query text params
    ∧ ∀ (W : Type) (db : client W) (w : W),
        statements db (Company.findAll searchFilters) w = [(text, params)].
Proof.
  intros Hbound. rewrite findAll_unfold.
  assert (gt (JS.get searchFilters "minEmployees")
             (JS.get searchFilters "maxEmployees") = false) as ->.
  { destruct Hbound as [-> | ->]; apply gt_undefined. }
  cbv zeta. do 2 eexists. split; [reflexivity|].
  intros W db w. unfold Db.query. cbn [statements].
  by destruct (db _ _ w) as [[rows|message] w'].
Qed.

Lemma findAll_one_bound_witness :
  ∃ (text : string) (params : list value),
    Company.findAll [("minEmployees", VNum 500); ("maxEmployee", VNum 1)]
    = Db.query text params
    ∧ ∀ (W : Type) (db : client W) (w : W),
        statements db
          (Company.findAll
             [("minEmployees", VNum 500); ("maxEmployee", VNum 1)]) w
        = [(text, params)].
Proof.
  apply (findAll_one_bound
           [("minEmployees", VNum 500); ("maxEmployee", VNum 1)]).
  right. reflexivity.
Defined.

(** X6.  [findAll] sends at most one statement, and when it returns it
    returns the rows of that statement's answer as they are, leaving the
    store as the server left it; the only error of its own is the
    [BadRequestError] of the range check. *)
Theorem findAll_returns_rows
    (W : Type) (db : client W) (w : W) (searchFilters : object) :
  length (statements db (Company.findAll searchFilters) w) ≤ 1
  ∧ (∀ (rows : list row) (w' : W),
       run db (Company.findAll searchFilters) w = (Normal rows, w') ↔
       ∃ (text : string) (params : list value),
         statements db (Company.findAll searchFilters) w = [(text, params)]
         ∧ db text params w = (Rows rows, w'))
  ∧ ∀ (e : error) (w' : W),
      run db (Company.findAll searchFilters) w = (Thrown e, w') →
      (e = BadRequestError
             "min employees can not be greater the max employees"
       ∧ statements db (Company.findAll searchFilters) w = [])
      ∨ ∃ message : string, e = DbError message.
Proof.
  rewrite findAll_unfold.
  destruct (gt _ _).
  - cbn [run statements length]. split; [lia|]. split.
    + intros rows w'. split; [discriminate|].
      intros (text & params & [=] & _).
    + intros e w' [= <- _]. left. split; reflexivity.
  - cbv zeta. unfold Db.query. cbn [run statements].
    destruct (db _ _ w) as [[rows0|message] w0] eqn:Hdb;
      cbn [run length]; (split; [lia|]); split.
    + intros rows w'. split.
      * intros [= <- <-]. eauto.
      * intros (text & params & [= <- <-] & Hans).
        rewrite Hdb in Hans. by injection Hans as <- <-.
    + intros e w' [=].
    + intros rows w'. split; [discriminate|].
      intros (text & params & [= <- <-] & Hans).
      rewrite Hdb in Hans. discriminate Hans.
    + intros e w' [= <- _]. right. eauto.
Qed.

End FindAllOutcome.

(** ** [Company.get]: its statements and its outcomes *)

Section GetOutcome.
Import JS Db.

(** X7.  Under any server, [get] sends its lookup and then its join, both
    with the handle as the one parameter.  It ends in [NotFoundError]
    exactly when both are answered and the join has no row; and a company
    it returns is read off the first row of the join, with one [jobs]
    entry per row of the join, so [jobs] is never empty. *)
Theorem get_outcomes (W : Type) (db : client W) (w : W) (h : string) :
  ((run db (Company.get h) w).1
     = Thrown (NotFoundError ("No company: " +:+ h))
   ↔ ∃ (res : list row) (w1 w2 : W),
       db Company.get_lookup_query [VStr h] w = (Rows res, w1)
       ∧ db Company.get_join_query [VStr h] w1 = (Rows [], w2))
  ∧ ∀ (c : Company.company_detail) (w' : W),
      run db (Company.get h) w = (Normal c, w') →
      ∃ (res : list row) (w1 : W) (row0 : row) (rows : list row),
        db Company.get_lookup_query [VStr h] w = (Rows res, w1)
        ∧ db Company.get_join_query [VStr h] w1 = (Rows (row0 :: rows), w')
        ∧ statements db (Company.get h) w
          = [ (Company.get_lookup_query, [VStr h]);
              (Company.get_join_query, [VStr h]) ]
        ∧ Company.handle c = JS.get row0 "handle"
        ∧ Company.name c = JS.get row0 "name"
        ∧ Company.description c = JS.get row0 "description"
        ∧ Company.numEmployees c = JS.get row0 "numEmployees"
        ∧ Company.logoUrl c = JS.get row0 "logoUrl"
        ∧ Company.jobs c = Company.job_of_row <$> (row0 :: rows)
        ∧ length (Company.jobs c) = S (length rows).
Proof.
  unfold Company.get, Db.query.
  cbn [mbind prog_bind bind run statements].
  destruct (db Company.get_lookup_query [VStr h] w)
    as [[res|message] w1] eqn:Hlookup; cbn [run statements].
  - destruct (db Company.get_join_query [VStr h] w1)
      as [[[|row0 rows]|message] w2] eqn:Hjoin; cbn [run statements fst].
    + split.
      * split; [intros _; eauto | reflexivity].
      * intros c w' [=].
    + split.
      * split; [discriminate|].
        intros (res' & w1' & w2' & [= <- <-] & Hj).
        rewrite Hjoin in Hj. discriminate Hj.
      * intros c w' [= <- <-].
        exists res, w1, row0, rows.
        repeat split; try assumption.
        exact (length_fmap Company.job_of_row (row0 :: rows)).
    + split.
      * split; [discriminate|].
        intros (res' & w1' & w2' & [= <- <-] & Hj).
        rewrite Hjoin in Hj. discriminate Hj.
      * intros c w' [=].
  - split.
    + split; [discriminate|]. intros (res' & w1' & w2' & [=] & _).
    + intros c w' [=].
Qed.

End GetOutcome.

Section GetOnTables.
Import JS Db Postgres.

Lemma company_part_nonempty (js : list job_row) (c : company_row) :
  company_part js c ≠ [].
Proof.
  unfold company_part.
  by destruct (List.filter (on_handle c) js).
Qed.

(** The rows of the join for a handle, company by company. *)
Lemma where_full_join_parts (h : string) (cs : list company_row)
    (js : list job_row) :
  List.filter (where_handle h) (full_join cs js)
  = flat_map (λ c, if String.eqb (c_handle c) h
                   then company_part js c else []) cs.
Proof.
  unfold full_join.
  rewrite List.filter_app, where_unmatched_jobs, app_nil_r, filter_flat_map.
  induction cs as [|c cs IH]; [reflexivity|].
  simpl. by rewrite where_company_part, IH.
Qed.

(** X8.  On the tables, [get] ends in [NotFoundError] exactly when no
    company has the handle, whatever jobs there are (a job that names a
    handle without a company does not make the company exist); and [get]
    never changes the store. *)
Theorem get_not_found_iff (d : database) (h : string) :
  (run server (Company.get h) d
     = (Thrown (NotFoundError ("No company: " +:+ h)), d)
   ↔ ∀ c, c ∈ companies d → c_handle c ≠ h)
  ∧ (run server (Company.get h) d).2 = d.
Proof.
  rewrite run_get. split; [|reflexivity].
  unfold select_join. rewrite where_full_join_parts.
  generalize (jobs d). intros js.
  induction (companies d) as [|c cs IH].
  - simpl. split; [|reflexivity]. intros _ c Hc. by apply elem_of_nil in Hc.
  - simpl. destruct (String.eqb_spec (c_handle c) h) as [Heq|Hne].
    + pose proof (company_part_nonempty js c) as Hpart.
      destruct (company_part js c) as [|r part]; [congruence|].
      simpl. split; [discriminate|].
      intros Hall. exfalso. apply (Hall c); [left | exact Heq].
    + simpl. rewrite IH. split.
      * intros Hall c' Hc'. apply elem_of_cons in Hc' as [->|Hc']; auto.
      * intros Hall c' Hc'. apply Hall. by right.
Qed.

Lemma jobs_of_partners (c : company_row) (partners : list job_row) :
  Company.job_of_row <$>
    (join_row <$> ((λ j, (Some c, Some j)) <$> partners))
  = entry_of_job <$> partners.
Proof.
  induction partners as [|j partners IH]; [reflexivity|].
  cbn [fmap list_fmap] in *. by rewrite IH.
Qed.

(** X9.  On the tables, with handles a key, [get] on the handle of a
    company returns that company's columns and a [jobs] list that holds,
    in some order, one entry per job that names its handle, with that
    job's id, title, salary and equity; jobs of other companies and jobs
    with a NULL handle never appear.  When no job names it, the one entry
    is the all-null one.  Nothing is said of the order of the entries:
    the statement has no ORDER BY. *)
Theorem get_company_jobs (d : database) (c : company_row) :
  c ∈ companies d →
  NoDup (c_handle <$> companies d) →
  ∃ entries : list Company.job_entry,
    run server (Company.get (c_handle c)) d
    = (Normal {| Company.handle := VStr (c_handle c);
                 Company.name := c_name c;
                 Company.description := c_description c;
                 Company.numEmployees := c_num_employees c;
                 Company.logoUrl := c_logo_url c;
                 Company.jobs := entries |}, d)
    ∧ entries ≡ₚ match List.filter (on_handle c) (jobs d) with
                 | [] => [null_entry]
                 | partners => entry_of_job <$> partners
                 end.
Proof.
  intros Hc Hkey. rewrite run_get. unfold select_join.
  rewrite where_full_join by assumption. unfold company_part.
  destruct (List.filter (on_handle c) (jobs d)) as [|j partners].
  - eexists. split; reflexivity.
  - eexists. split; [reflexivity|].
    by rewrite <- (jobs_of_partners c (j :: partners)).
Qed.

Lemma get_company_jobs_witness :
  ∃ entries : list Company.job_entry,
    run server (Company.get "c1") store
    = (Normal {| Company.handle := VStr "c1";
                 Company.name := VStr "C1";
                 Company.description := VStr "Desc1";
                 Company.numEmployees := VNum 1;
                 Company.logoUrl := VStr "http://c1.img";
                 Company.jobs := entries |}, store)
    ∧ entries ≡ₚ [entry_of_job j1].
Proof.
  apply (get_company_jobs store c1).
  - left.
  - apply (bool_decide_unpack (NoDup ["c1"; "c2"])). vm_compute. reflexivity.
Defined.

End GetOnTables.

(** ** [Company.update] and [Company.remove]: the statement and the result *)

Section UpdateStatement.
Import JS Db Sql Stated.

Lemma company_mapper_resolved (key : string) :
  resolved_column Company.jsToSql key = CompanyColumns.column key.
Proof.
  unfold CompanyColumns.column.
  destruct (String.eqb_spec key "numEmployees") as [->|Hn];
    [vm_compute; reflexivity|].
  destruct (String.eqb_spec key "logoUrl") as [->|Hl];
    [vm_compute; reflexivity|].
  unfold resolved_column, Company.jsToSql.
  rewrite lookup_insert_ne by congruence.
  rewrite lookup_singleton_ne by congruence. reflexivity.
Qed.

(** X10.  For non-empty data [update] sends one UPDATE whose SET clause
    has one fragment per key, numbered [$1..$n]: [numEmployees] and
    [logoUrl] are written to [num_employees] and [logo_url], a key that
    names a member of [Object.prototype] (the mapper literal inherits
    them) to the text of that member, and every other key to the column
    of its own name.  The parameters are the n values in the same order
    followed by the handle, and the WHERE clause names the handle's
    position, [$<n+1>], which is the number of parameters. *)
Theorem update_statement (h : string) (data : object) :
  data ≠ [] →
  ∃ (frags : list string) (params : list value) (k : list row → prog row),
    Company.update h data
    = Query (Company.update_query (join ", " frags)
                                  ("$" +:+ pretty (length params)))
            params k
    ∧ length frags = length data
    ∧ length params = S (length data)
    ∧ params !! length data = Some (VStr h)
    ∧ ∀ (i : nat) (key : string) (v : value),
        data !! i = Some (key, v) →
        frags !! i = Some (fragment (CompanyColumns.column key) (S i))
        ∧ params !! i = Some v.
Proof.
  intros Hd. rewrite update_nonempty by exact Hd.
  exists (cols data Company.jsToSql), (data.*2 ++ [VStr h]). eexists.
  split.
  { rewrite length_app. reflexivity. }
  split; [unfold cols, keys; by rewrite length_imap, length_fmap|].
  split; [rewrite length_app, length_fmap; simpl; lia|].
  split.
  { rewrite lookup_app_r by (by rewrite length_fmap).
    by rewrite length_fmap, Nat.sub_diag. }
  intros i key v Hi. split.
  - unfold cols, keys.
    rewrite list_lookup_imap, list_lookup_fmap, Hi. simpl.
    by rewrite col_fragment, company_mapper_resolved.
  - rewrite lookup_app_l.
    + by rewrite list_lookup_fmap, Hi.
    + rewrite length_fmap. by eapply lookup_lt_Some.
Qed.

Lemma update_statement_witness :
  ∃ (frags : list string) (params : list value) (k : list row → prog row),
    Company.update "c1" [("name", VStr "New"); ("logoUrl", VNull)]
    = Query (Company.update_query (join ", " frags)
                                  ("$" +:+ pretty (length params)))
            params k
    ∧ length frags = 2%nat
    ∧ length params = 3%nat
    ∧ params !! 2%nat = Some (VStr "c1")
    ∧ ∀ (i : nat) (key : string) (v : value),
        [("name", VStr "New"); ("logoUrl", VNull)] !! i = Some (key, v) →
        frags !! i = Some (fragment (CompanyColumns.column key) (S i))
        ∧ params !! i = Some v.
Proof.
  apply (update_statement "c1" [("name", VStr "New"); ("logoUrl", VNull)]).
  discriminate.
Defined.

(** X11.  Under any server, [update] returns a row exactly when its data
    is not empty and the server answers the UPDATE with at least one row,
    and the row returned is the first one; [remove] returns (undefined)
    exactly when the server answers the DELETE with at least one row.  In
    both the store is the one the server left. *)
Theorem company_mutation_returns
    (W : Type) (db : client W) (w w' : W) (h : string) (data : object)
    (r : row) :
  (run db (Company.update h data) w = (Normal r, w')
   ↔ data ≠ []
     ∧ ∃ rows : list row,
         db (Company.update_query
               (join ", " (cols data Company.jsToSql))
               ("$" +:+ pretty (length data.*2 + 1)%nat))
            (data.*2 ++ [VStr h]) w = (Rows (r :: rows), w'))
  ∧ (run db (Company.remove h) w = (Normal tt, w')
     ↔ ∃ (r0 : row) (rows : list row),
         db Company.remove_query [VStr h] w = (Rows (r0 :: rows), w')).
Proof.
  split.
  - destruct data as [|kv data].
    + rewrite update_empty. simpl. split; [discriminate|].
      intros [Hd _]. congruence.
    + rewrite update_nonempty by discriminate.
      cbn [run]. destruct (db _ _ w) as [[[|r0 rows]|message] w0]; simpl.
      * split; [discriminate | intros [_ [rows [=]]]].
      * split.
        -- intros [= <- <-]. split; [discriminate | eauto].
        -- intros [_ [rows' [= <- _ <-]]]. reflexivity.
      * split; [discriminate | intros [_ [rows [=]]]].
  - unfold Company.remove, Db.query. cbn [mbind prog_bind bind run].
    destruct (db _ _ w) as [[[|r0 rows]|message] w0]; simpl.
    + split; [discriminate | intros (r1 & rows & [=])].
    + split.
      * intros [= <-]. eauto.
      * intros (r1 & rows' & [= _ _ <-]). reflexivity.
    + split; [discriminate | intros (r1 & rows & [=])].
Qed.

(** The key [toString] reaches the SET clause as the text of the
    inherited method. *)
Example update_inherited_key :
  ∃ k : list row → prog row,
    Company.update "c1" [("toString", VStr "x")]
    = Query (Company.update_query
               (dq +:+ "function toString() { [native code] }" +:+ dq
                   +:+ "=$1")
               "$2")
            [VStr "x"; VStr "c1"] k.
Proof. eexists. vm_compute. reflexivity. Qed.

End UpdateStatement.

(** ** The handlers of [routes/users.js] *)

Section Handlers.
Import JS Db Auth UsersRoutes.

Lemma guarded_allowed {A : Type} (middleware : request → decision)
    (handler : request → prog A) (req : request) :
  middleware req = Allowed → guarded middleware handler req = handler req.
Proof. unfold guarded. by intros ->. Qed.

(** X12.  PATCH /users/:username on a request the gate lets through: a
    body the validator refuses ends in [BadRequestError] with the
    validator's errors and sends no statement, whatever the user model
    is; a valid body calls [User.update] once, with the username of the
    path and the body, and the answer is the user it returns, or the
    error it throws. *)
Theorem patch_user_validates_first
    (user : Type) (User_update : string → object → prog user)
    (userUpdate_errors : object → option string) (req : request)
    (W : Type) (db : client W) (w : W) :
  userOrAdmin req = Allowed →
  match userUpdate_errors (body req) with
  | Some errs =>
      run db (patch_user User_update userUpdate_errors req) w
      = (Thrown (BadRequestError errs), w)
      ∧ statements db (patch_user User_update userUpdate_errors req) w = []
  | None =>
      run db (patch_user User_update userUpdate_errors req) w
      = match run db (User_update (params_username req) (body req)) w with
        | (Normal u, w') => (Normal (JsonUser u), w')
        | (Thrown e, w') => (Thrown e, w')
        end
      ∧ statements db (patch_user User_update userUpdate_errors req) w
        = statements db (User_update (params_username req) (body req)) w
  end.
Proof.
  intros Hgate. unfold patch_user. rewrite guarded_allowed by exact Hgate.
  destruct (userUpdate_errors (body req)) as [errs|].
  - split; reflexivity.
  - change (mbind ?f ?p) with (bind p f).
    rewrite run_bind, statements_bind. split.
    + by destruct (run db _ w) as [[u|e] w'].
    + destruct (run db _ w) as [[u|e] w']; simpl; by rewrite app_nil_r.
Qed.

Lemma patch_user_validates_first_witness :
  run (λ _ _ (n : nat), (Rows [], S n))
      (patch_user (user:=list row) (λ _ _, Db.query "UPDATE users" [])
                  (λ _, Some "instance.email is not of a type(s) string")
                  (Request (Some (Claims "u1" false)) "u1" "0"
                           [("email", VNum 1)]))
      0%nat
  = (Thrown (BadRequestError "instance.email is not of a type(s) string"),
     0%nat)
  ∧ statements (λ _ _ (n : nat), (Rows [], S n))
      (patch_user (user:=list row) (λ _ _, Db.query "UPDATE users" [])
                  (λ _, Some "instance.email is not of a type(s) string")
                  (Request (Some (Claims "u1" false)) "u1" "0"
                           [("email", VNum 1)]))
      0%nat
    = [].
Proof.
  apply (patch_user_validates_first (list row)
           (λ _ _, Db.query "UPDATE users" [])
           (λ _, Some "instance.email is not of a type(s) string")
           (Request (Some (Claims "u1" false)) "u1" "0" [("email", VNum 1)])
           nat (λ _ _ (n : nat), (Rows [], S n)) 0%nat).
  reflexivity.
Defined.

(** X13.  POST /users/:username/jobs/:id on a request the gate lets
    through first looks the application up.  When one exists the answer
    is [ExpressError] with status 400 and the message "<username> has
    already applied for this job.", and [User.apply] does not run: the
    statements sent are those of the lookup.  When none exists
    [User.apply] runs after the lookup, on the same username and job id,
    and its result is the answer. *)
Theorem post_application_checks_duplicate
    (user application : Type)
    (User_getApplication : string → string → prog (option application))
    (User_apply : string → string → prog value) (req : request)
    (W : Type) (db : client W) (w : W) :
  userOrAdmin req = Allowed →
  match run db (User_getApplication (params_username req) (params_id req)) w
  with
  | (Normal (Some _), w1) =>
      run db (post_application (user:=user)
                User_getApplication User_apply req) w
      = (Thrown (ExpressError
                   (params_username req
                      +:+ " has already applied for this job.") 400), w1)
      ∧ statements db (post_application (user:=user)
                         User_getApplication User_apply req) w
        = statements db
            (User_getApplication (params_username req) (params_id req)) w
  | (Normal None, w1) =>
      run db (post_application (user:=user)
                User_getApplication User_apply req) w
      = match run db (User_apply (params_username req) (params_id req)) w1
        with
        | (Normal id, w2) => (Normal (JsonApplied id), w2)
        | (Thrown e, w2) => (Thrown e, w2)
        end
      ∧ statements db (post_application (user:=user)
                         User_getApplication User_apply req) w
        = statements db
            (User_getApplication (params_username req) (params_id req)) w
          ++ statements db
               (User_apply (params_username req) (params_id req)) w1
  | (Thrown e, w1) =>
      run db (post_application (user:=user)
                User_getApplication User_apply req) w
      = (Thrown e, w1)
  end.
Proof.
  intros Hgate. unfold post_application.
  rewrite guarded_allowed by exact Hgate.
  change (mbind ?f ?p) with (bind p f). cbv zeta.
  rewrite run_bind, statements_bind.
  destruct (run db (User_getApplication _ _) w) as [[[a|]|e] w1].
  - split; [reflexivity | by rewrite app_nil_r].
  - change (mbind ?f ?p) with (bind p f).
    rewrite run_bind, statements_bind. split.
    + by destruct (run db _ w1) as [[id|e] w2].
    + destruct (run db _ w1) as [[id|e] w2]; simpl; by rewrite app_nil_r.
  - reflexivity.
Qed.

Lemma post_application_checks_duplicate_witness :
  run (λ _ _ (n : nat), (Rows [[("job_id", VNum 7)]], S n))
      (post_application (user:=unit)
         (λ _ _, rows ← Db.query "SELECT job_id FROM applications" [];
                 mret (rows !! 0%nat))
         (λ _ _, rows ← Db.query "INSERT INTO applications" [];
                 mret (VNum 7))
         (Request (Some (Claims "admin" true)) "u1" "7" []))
      0%nat
  = (Thrown (ExpressError "u1 has already applied for this job." 400),
     1%nat)
  ∧ statements (λ _ _ (n : nat), (Rows [[("job_id", VNum 7)]], S n))
      (post_application (user:=unit)
         (λ _ _, rows ← Db.query "SELECT job_id FROM applications" [];
                 mret (rows !! 0%nat))
         (λ _ _, rows ← Db.query "INSERT INTO applications" [];
                 mret (VNum 7))
         (Request (Some (Claims "admin" true)) "u1" "7" []))
      0%nat
    = [("SELECT job_id FROM applications", [])].
Proof.
  exact (post_application_checks_duplicate unit row
           (λ _ _, rows ← Db.query "SELECT job_id FROM applications" [];
                   mret (rows !! 0%nat))
           (λ _ _, rows ← Db.query "INSERT INTO applications" [];
                   mret (VNum 7))
           (Request (Some (Claims "admin" true)) "u1" "7" [])
           nat (λ _ _ (n : nat), (Rows [[("job_id", VNum 7)]], S n)) 0%nat
           eq_refl).
Defined.

(** X14.  POST /users behind any admin middleware: a request the
    middleware refuses ends in the unauthorized error, and one it lets
    through with a body the validator refuses ends in [BadRequestError];
    in both no statement is sent and nobody is registered.  With a valid
    body the user is registered first and the token is made from the user
    [User.register] returned; the answer has status 201 and carries that
    user and that token. *)
Theorem post_user_order
    (user : Type) (ensureAdmin : request → decision)
    (User_register : object → prog user)
    (createToken : user → completion string)
    (userNew_errors : object → option string) (req : request)
    (W : Type) (db : client W) (w : W) :
  match ensureAdmin req, userNew_errors (body req) with
  | Denied, _ =>
      run db (post_user ensureAdmin User_register createToken
                        userNew_errors req) w
      = (Thrown UnauthorizedError, w)
      ∧ statements db (post_user ensureAdmin User_register createToken
                                 userNew_errors req) w = []
  | Allowed, Some errs =>
      run db (post_user ensureAdmin User_register createToken
                        userNew_errors req) w
      = (Thrown (BadRequestError errs), w)
      ∧ statements db (post_user ensureAdmin User_register createToken
                                 userNew_errors req) w = []
  | Allowed, None =>
      run db (post_user ensureAdmin User_register createToken
                        userNew_errors req) w
      = match run db (User_register (body req)) w with
        | (Normal u, w') =>
            match createToken u with
            | Normal token => (Normal (StatusJsonUserToken 201 u token), w')
            | Thrown e => (Thrown e, w')
            end
        | (Thrown e, w') => (Thrown e, w')
        end
      ∧ statements db (post_user ensureAdmin User_register createToken
                                 userNew_errors req) w
        = statements db (User_register (body req)) w
  end.
Proof.
  unfold post_user, guarded.
  destruct (ensureAdmin req); [|split; reflexivity].
  destruct (userNew_errors (body req)) as [errs|]; [split; reflexivity|].
  change (mbind ?f ?p) with (bind p f).
  rewrite run_bind, statements_bind.
  destruct (run db (User_register (body req)) w) as [[u|e] w'].
  - change (mbind ?f ?p) with (bind p f). rewrite run_bind, statements_bind.
    destruct (createToken u) as [token|e]; simpl;
      (split; [reflexivity | by rewrite app_nil_r]).
  - split; [reflexivity | by rewrite app_nil_r].
Qed.

End Handlers.

(** ** The other filter cases of [models/job.test.js] *)

Example job_findAll_title_test :
  Job.matching (Job.Criteria (Some "J1") None None) [Job.J1; Job.J2; Job.J3]
  = [Job.J1].
Proof. vm_compute. reflexivity. Qed.

Example job_findAll_minSalary_test :
  Job.matching (Job.Criteria None (Some 190000%Z) None)
               [Job.J1; Job.J2; Job.J3]
  = [Job.J3].
Proof. vm_compute. reflexivity. Qed.

Example job_findAll_all_filters_test :
  Job.matching (Job.Criteria (Some "J1") (Some 100000%Z) (Some true))
               [Job.J1; Job.J2; Job.J3]
  = [Job.J1].
Proof. vm_compute. reflexivity. Qed.
